(** * Proxmox VE exporter: collectors of [pve_exporter/collector.py]

    A shallow embedding of the collectors and of the label normalisation
    they share, followed by the properties of the specification that were
    checked against them.

    Conventions of the embedding.
    - Python objects that reach the collectors are the scalars of a decoded
      JSON answer: [None], booleans, integers and strings.  JSON floats
      (the [cpu] ratio) are outside the model.
    - A Python [dict] is an insertion-ordered association list; [dict_wf]
      says that its keys are pairwise distinct, which every Python dict
      satisfies.
    - A raised exception is the [Raise] branch of [result]; the exception
      classes are those of CPython 3. *)

From Stdlib Require Import ZArith List String Ascii Bool Lia.
From Stdlib Require Import DecimalString DecimalPos DecimalZ.
Import ListNotations.

Local Open Scope string_scope.
Local Open Scope list_scope.

(** ** Python objects and exceptions *)

(** The scalars of the model.  There is no float: a float equals the
    integer of the same value for [==] while [str] tells them apart, so
    the properties below speak of records whose fields are [None],
    booleans, integers and strings. *)
Inductive value : Type :=
| VNone
| VBool (b : bool)
| VInt (z : Z)
| VStr (s : string).

Inductive exn : Type :=
| ValueError (msg : string)
| TypeError (msg : string)
| KeyError (key : string)
| IndexError (msg : string).

Inductive result (A : Type) : Type :=
| Ok (a : A)
| Raise (e : exn).

Arguments Ok {A} a.
Arguments Raise {A} e.

Definition bind {A B : Type} (m : result A) (k : A -> result B) : result B :=
  match m with
  | Ok a => k a
  | Raise e => Raise e
  end.

Notation "x <- m ;; k" := (bind m (fun x => k))
  (at level 61, m at next level, right associativity).

(** [for x in xs: acc = body(acc, x)], stopping at the first exception. *)
Fixpoint for_each {S A : Type} (body : S -> A -> result S) (xs : list A) (acc : S)
  : result S :=
  match xs with
  | [] => Ok acc
  | x :: rest => acc' <- body acc x ;; for_each body rest acc'
  end.

(** [[f(x) for x in xs]], stopping at the first exception. *)
Fixpoint map_each {A B : Type} (f : A -> result B) (xs : list A) : result (list B) :=
  match xs with
  | [] => Ok []
  | x :: rest => y <- f x ;; ys <- map_each f rest ;; Ok (y :: ys)
  end.

Module Py.

(** [bool(v)] *)
Definition truthy (v : value) : bool :=
  match v with
  | VNone => false
  | VBool b => b
  | VInt z => negb (z =? 0)%Z
  | VStr s => negb (s =? "")%string
  end.

(** [a or b]: the first operand when it is truthy, the second otherwise. *)
Definition or_ (a b : value) : value := if truthy a then a else b.

(** The number a boolean or an integer stands for ([True == 1]). *)
Definition number (v : value) : option Z :=
  match v with
  | VBool b => Some (Z.b2z b)
  | VInt z => Some z
  | _ => None
  end.

(** [a == b] *)
Definition eqb (a b : value) : bool :=
  match a, b with
  | VNone, VNone => true
  | VStr s, VStr t => (s =? t)%string
  | _, _ =>
      match number a, number b with
      | Some m, Some n => (m =? n)%Z
      | _, _ => false
      end
  end.

(** [v in xs] for a list (and, as hashes agree with [==], for a set). *)
Definition contains (xs : list value) (v : value) : bool :=
  existsb (eqb v) xs.

(** [str(v)] *)
Definition str (v : value) : string :=
  match v with
  | VNone => "None"
  | VBool true => "True"
  | VBool false => "False"
  | VInt z => NilZero.string_of_int (Z.to_int z)
  | VStr s => s
  end.

(** ['{:s}'.format(v)] after [prefix]: only a string accepts the [s]
    presentation type. *)
Definition format_s (prefix : string) (v : value) : result string :=
  match v with
  | VStr s => Ok (prefix ++ s)%string
  | VNone => Raise (TypeError "unsupported format string passed to NoneType.__format__")
  | VBool _ => Raise (ValueError "Unknown format code 's' for object of type 'bool'")
  | VInt _ => Raise (ValueError "Unknown format code 's' for object of type 'int'")
  end.

(** *** Dictionaries with string keys *)

Definition dict : Type := list (string * value).

Definition keys (d : dict) : list string := map fst d.
Definition values (d : dict) : list value := map snd d.

Definition dict_wf (d : dict) : Prop := NoDup (keys d).

Fixpoint lookup (d : dict) (k : string) : option value :=
  match d with
  | [] => None
  | (k', v) :: rest => if (k' =? k)%string then Some v else lookup rest k
  end.

(** [k in d] *)
Definition has_key (d : dict) (k : string) : bool :=
  match lookup d k with Some _ => true | None => false end.

(** [d.get(k)] *)
Definition get (d : dict) (k : string) : value :=
  match lookup d k with Some v => v | None => VNone end.

(** [d[k]] *)
Definition getitem (d : dict) (k : string) : result value :=
  match lookup d k with Some v => Ok v | None => Raise (KeyError k) end.

(** [d[k] = v]: an existing key keeps its position, a new one goes last. *)
Fixpoint setitem (d : dict) (k : string) (v : value) : dict :=
  match d with
  | [] => [(k, v)]
  | (k', v') :: rest =>
      if (k' =? k)%string then (k, v) :: rest else (k', v') :: setitem rest k v
  end.

Fixpoint remove (d : dict) (k : string) : dict :=
  match d with
  | [] => []
  | (k', v') :: rest =>
      if (k' =? k)%string then rest else (k', v') :: remove rest k
  end.

(** [del d[k]] *)
Definition delitem (d : dict) (k : string) : result dict :=
  if has_key d k then Ok (remove d k) else Raise (KeyError k).

(** [sorted(xs)] on strings, by insertion. *)
Fixpoint insert_sorted (x : string) (xs : list string) : list string :=
  match xs with
  | [] => [x]
  | y :: rest => if String.leb x y then x :: xs else y :: insert_sorted x rest
  end.

Definition sorted (xs : list string) : list string :=
  fold_right insert_sorted [] xs.

End Py.

(** ** The metric families of [prometheus_client]

    [GaugeMetricFamily] belongs to the client library; it is modelled at its
    interface: a family is created with a name, a help text and its label
    names, and [add_metric] appends one sample, the label values paired
    with the value as it was passed. *)

Record Sample (L : Type) : Type := mkSample {
  sample_labels : list L;
  sample_value : value
}.

Arguments mkSample {L} _ _.
Arguments sample_labels {L} _.
Arguments sample_value {L} _.

Record GaugeMetricFamily (L : Type) : Type := mkFamily {
  name : string;
  documentation : string;
  labelnames : list string;
  samples : list (Sample L)
}.

Arguments mkFamily {L} _ _ _ _.
Arguments name {L} _.
Arguments documentation {L} _.
Arguments labelnames {L} _.
Arguments samples {L} _.

Definition new_family {L : Type} (n doc : string) (labels : list string)
  : GaugeMetricFamily L :=
  mkFamily n doc labels [].

Definition add_metric {L : Type} (fam : GaugeMetricFamily L) (label_values : list L)
  (v : value) : GaugeMetricFamily L :=
  mkFamily (name fam) (documentation fam) (labelnames fam)
           (samples fam ++ [mkSample label_values v]).

(** The answers of the API client, one field per query the collectors make. *)
Record ProxmoxAPI : Type := mkAPI {
  cluster_resources : list Py.dict;
  cluster_status : list Py.dict;
  version : Py.dict
}.

(** ** [LabelingCollectorBase] *)

Module LabelingCollectorBase.

Definition KNOWN_LABEL_KEYS : list string :=
  ["id"; "name"; "node"; "template"; "type"].

Definition downcast_label_value (val : value) : string :=
  match val with
  | VNone => ""
  | VBool true => "1"
  | VBool false => "0"
  | _ => Py.str val
  end.

(** [{key: resource.get(key) for key in label_keys}] *)
Definition copy_labels (resource : Py.dict) (label_keys : list string) : Py.dict :=
  fold_left (fun labels key => Py.setitem labels key (Py.get resource key))
            label_keys [].

Definition get_known_labels (resource : Py.dict) (label_keys : option (list string))
  : result Py.dict :=
  let label_keys :=
    match label_keys with
    | None => KNOWN_LABEL_KEYS
    | Some given => given
    end in
  let labels := copy_labels resource label_keys in
  let labels :=
    if Py.has_key labels "name" then
      if Py.eqb (Py.get labels "type") (VStr "storage") then
        Py.setitem labels "name" (Py.get resource "storage")
      else if Py.eqb (Py.get labels "type") (VStr "node") then
        Py.setitem labels "name" (Py.get resource "node")
      else labels
    else labels in
  if Py.has_key labels "id" then
    if Py.eqb (Py.get labels "type") (VStr "cluster") then
      cluster_id <- Py.format_s "cluster/" (Py.get resource "name") ;;
      Ok (Py.setitem labels "id" (VStr cluster_id))
    else Ok labels
  else Ok labels.

Definition get_label_values (labels : Py.dict) (label_keys : option (list string))
  : list string :=
  let label_keys :=
    match label_keys with
    | None => Py.sorted (Py.keys labels)
    | Some given => given
    end in
  map (fun key => downcast_label_value (Py.get labels key)) label_keys.

End LabelingCollectorBase.

(** ** [StatusCollector] *)

Module StatusCollector.
Import LabelingCollectorBase.

Definition SUPPORTED_UP_RES_TYPES : list string :=
  ["qemu"; "lxc"; "node"; "storage"; "vm"; "cluster"].

Definition is_entry_up (entry : Py.dict) : result value :=
  if negb (Py.contains (map VStr SUPPORTED_UP_RES_TYPES) (Py.get entry "type")) then
    msg <- Py.format_s "Got unexpected status entry type " (Py.get entry "type") ;;
    Raise (ValueError msg)
  else
    let status := Py.get entry "status" in
    let quorate := Py.get entry "quorate" in
    let online := Py.get entry "online" in
    Ok (Py.or_ (Py.or_ quorate online)
               (VBool (Py.contains [VStr "available"; VStr "online"; VStr "running"]
                                   status))).

(** The state of the loop of [collect]: the set [processed_ids] and the
    family under construction. *)
Definition loop_state : Type := (list value * GaugeMetricFamily string)%type.

(** One iteration of the loop of [collect]. *)
Definition collect_entry (label_keys : list string) (state : loop_state)
  (entry : Py.dict) : result loop_state :=
  let '(processed_ids, status_metrics) := state in
  labels <- get_known_labels entry None ;;
  id <- Py.getitem labels "id" ;;
  if Py.contains processed_ids id then Ok state
  else
    let processed_ids := id :: processed_ids in
    is_up <- is_entry_up entry ;;
    let label_values := get_label_values labels (Some label_keys) in
    Ok (processed_ids, add_metric status_metrics label_values is_up).

Definition collect (pve : ProxmoxAPI) : result (list (GaugeMetricFamily string)) :=
  let label_keys := KNOWN_LABEL_KEYS in
  let status_metrics :=
    new_family "pve_up" "Node/VM/CT-Status is online/running" label_keys in
  final <- for_each (collect_entry label_keys)
                    (cluster_resources pve ++ cluster_status pve)
                    ([], status_metrics) ;;
  Ok [snd final].

End StatusCollector.

(** ** [VersionCollector] *)

Module VersionCollector.

Definition LABEL_WHITELIST : list string := ["release"; "repoid"; "version"].

(** The items of [d] transposed by [zip] and unpacked into two names: the
    keys and the values, and a [ValueError] when there is no item. *)
Definition unzip_items (d : Py.dict) : result (list string * list value) :=
  match d with
  | [] => Raise (ValueError "not enough values to unpack (expected 2, got 0)")
  | _ :: _ => Ok (Py.keys d, Py.values d)
  end.

(** [{key: value for key, value in items if key in LABEL_WHITELIST}] *)
Definition whitelisted (items : list (string * value)) : Py.dict :=
  fold_left (fun acc item =>
               if existsb (String.eqb (fst item)) LABEL_WHITELIST
               then Py.setitem acc (fst item) (snd item) else acc)
            items [].

Definition collect (pve : ProxmoxAPI) : result (list (GaugeMetricFamily value)) :=
  let version_items := version pve in
  let version := whitelisted version_items in
  unzipped <- unzip_items version ;;
  let '(labels, label_values) := unzipped in
  let metric := new_family "pve_version_info" "Proxmox VE version info" labels in
  Ok [add_metric metric label_values (VInt 1)].

End VersionCollector.

(** [[x for x in xs if test(x)]], stopping at the first exception. *)
Fixpoint filter_each {A : Type} (test : A -> result bool) (xs : list A)
  : result (list A) :=
  match xs with
  | [] => Ok []
  | x :: rest =>
      keep <- test x ;;
      kept <- filter_each test rest ;;
      Ok (if keep then x :: kept else kept)
  end.

(** [xs[0]] *)
Definition first {A : Type} (xs : list A) : result A :=
  match xs with
  | x :: _ => Ok x
  | [] => Raise (IndexError "list index out of range")
  end.

(** [entry['type'] == kind] *)
Definition type_is (kind : string) (entry : Py.dict) : result bool :=
  t <- Py.getitem entry "type" ;; Ok (Py.eqb t (VStr kind)).

(** The closing loop the two info collectors share: one sample valued 1
    per record, the values of the schema's fields as [str] gives them. *)
Definition add_info_samples (labels : list string) (records : list Py.dict)
  (info_metrics : GaugeMetricFamily string) : result (GaugeMetricFamily string) :=
  for_each (fun fam record =>
              label_values <- map_each (fun key => v <- Py.getitem record key ;;
                                                   Ok (Py.str v)) labels ;;
              Ok (add_metric fam label_values (VInt 1)))
           records info_metrics.

(** ** [ClusterNodeCollector] *)

Module ClusterNodeCollector.

Definition collect (pve : ProxmoxAPI) : result (list (GaugeMetricFamily string)) :=
  nodes <- filter_each (type_is "node") (cluster_status pve) ;;
  match nodes with
  | [] => Ok []
  | _ :: _ =>
      nodes <- map_each (fun node => node <- Py.delitem node "type" ;;
                                     Py.delitem node "online") nodes ;;
      node0 <- first nodes ;;
      let labels := Py.keys node0 in
      let info_metrics := new_family "pve_node_info" "Node info" labels in
      info_metrics <- add_info_samples labels nodes info_metrics ;;
      Ok [info_metrics]
  end.

End ClusterNodeCollector.

(** ** [ClusterInfoCollector] *)

Module ClusterInfoCollector.

Definition collect (pve : ProxmoxAPI) : result (list (GaugeMetricFamily string)) :=
  clusters <- filter_each (type_is "cluster") (cluster_status pve) ;;
  match clusters with
  | [] => Ok []
  | _ :: _ =>
      clusters <- map_each (fun cluster => Py.delitem cluster "type") clusters ;;
      clusters <- map_each (fun cluster =>
                              name <- Py.getitem cluster "name" ;;
                              cluster_id <- Py.format_s "cluster/" name ;;
                              let cluster := Py.setitem cluster "id" (VStr cluster_id) in
                              Py.delitem cluster "name") clusters ;;
      cluster0 <- first clusters ;;
      let labels := Py.keys cluster0 in
      let info_metrics := new_family "pve_cluster_info" "Cluster info" labels in
      info_metrics <- add_info_samples labels clusters info_metrics ;;
      Ok [info_metrics]
  end.

End ClusterInfoCollector.

(** ** [ClusterResourcesCollector] *)

Module ClusterResourcesCollector.
Import LabelingCollectorBase.

(** A dict of families.  The families are objects that [add_metric]
    mutates; the dict is the store that holds them, and a mutation is an
    update of the store at the key of the family. *)
Definition families : Type := list (string * GaugeMetricFamily string).

Fixpoint find_family (key : string) (fs : families)
  : option (GaugeMetricFamily string) :=
  match fs with
  | [] => None
  | (k, fam) :: rest => if (k =? key)%string then Some fam else find_family key rest
  end.

Fixpoint update_family (key : string)
  (f : GaugeMetricFamily string -> GaugeMetricFamily string) (fs : families)
  : families :=
  match fs with
  | [] => []
  | (k, fam) :: rest =>
      if (k =? key)%string then (k, f fam) :: rest
      else (k, fam) :: update_family key f rest
  end.

Definition metrics_table (label_keys : list string) : families :=
  [ ("maxdisk", new_family "pve_disk_size_bytes" "Size of storage device" label_keys);
    ("disk", new_family "pve_disk_usage_bytes" "Disk usage in bytes" label_keys);
    ("maxmem", new_family "pve_memory_size_bytes" "Size of memory" label_keys);
    ("mem", new_family "pve_memory_usage_bytes" "Memory usage in bytes" label_keys);
    ("netout", new_family "pve_network_transmit_bytes"
                          "Number of bytes transmitted over the network" label_keys);
    ("netin", new_family "pve_network_receive_bytes"
                         "Number of bytes received over the network" label_keys);
    ("diskwrite", new_family "pve_disk_write_bytes"
                             "Number of bytes written to storage" label_keys);
    ("diskread", new_family "pve_disk_read_bytes"
                            "Number of bytes read from storage" label_keys);
    ("cpu", new_family "pve_cpu_usage_ratio"
                       "CPU usage (value between 0.0 and pve_cpu_usage_limit)"
                       label_keys);
    ("maxcpu", new_family "pve_cpu_usage_limit" "Maximum allowed CPU usage" label_keys);
    ("uptime", new_family "pve_uptime_seconds"
                          "Number of seconds since the last boot" label_keys) ].

Definition info_metrics_table (label_keys : list string) : families :=
  [ ("guest", new_family "pve_guest_info" "VM/CT info" label_keys);
    ("storage", new_family "pve_storage_info" "Storage info" label_keys) ].

(** [info_lookup] maps a resource type to a family of [info_metrics]; the
    family is shared, so the entry names the key it has there. *)
Definition info_lookup : list (string * string) :=
  [ ("lxc", "guest"); ("qemu", "guest"); ("storage", "storage") ].

Fixpoint lookup_info (restype : string) (table : list (string * string))
  : option string :=
  match table with
  | [] => None
  | (k, target) :: rest =>
      if (k =? restype)%string then Some target else lookup_info restype rest
  end.

(** [for key, metric_value in resource.items(): ...] *)
Definition route_items (label_values : list string) (resource : Py.dict)
  (metrics : families) : families :=
  fold_left (fun metrics item =>
               match find_family (fst item) metrics with
               | Some _ =>
                   update_family (fst item)
                                 (fun fam => add_metric fam label_values (snd item))
                                 metrics
               | None => metrics
               end)
            resource metrics.

(** [if restype in info_lookup: info_lookup[restype].add_metric(label_values, 1)];
    only a string can be a key of [info_lookup]. *)
Definition route_info (label_values : list string) (restype : value)
  (info_metrics : families) : families :=
  match restype with
  | VStr t =>
      match lookup_info t info_lookup with
      | Some target =>
          update_family target (fun fam => add_metric fam label_values (VInt 1))
                        info_metrics
      | None => info_metrics
      end
  | _ => info_metrics
  end.

(** One iteration of the loop of [collect]. *)
Definition collect_resource (state : families * families) (resource : Py.dict)
  : result (families * families) :=
  let '(metrics, info_metrics) := state in
  let restype := Py.get resource "type" in
  labels <- get_known_labels resource None ;;
  let label_values := get_label_values labels None in
  let info_metrics := route_info label_values restype info_metrics in
  Ok (route_items label_values resource metrics, info_metrics).

Definition collect (pve : ProxmoxAPI) : result (list (GaugeMetricFamily string)) :=
  let label_keys := KNOWN_LABEL_KEYS in
  final <- for_each collect_resource (cluster_resources pve)
                    (metrics_table label_keys, info_metrics_table label_keys) ;;
  let '(metrics, info_metrics) := final in
  Ok (map snd metrics ++ map snd info_metrics).

End ClusterResourcesCollector.

(** * Vocabulary of the properties

    The definitions the statements below are written with, and the
    records they are tried on. *)

(** A family with further samples appended. *)
Definition extend {L : Type} (fam : GaugeMetricFamily L) (new : list (Sample L))
  : GaugeMetricFamily L :=
  mkFamily (name fam) (documentation fam) (labelnames fam) (samples fam ++ new).

Module LabelKeys.
Import LabelingCollectorBase.

(** The label names a call asks for: the given ones, or the default. *)
Definition requested (label_keys : option (list string)) : list string :=
  match label_keys with
  | None => KNOWN_LABEL_KEYS
  | Some given => given
  end.

End LabelKeys.

Module Canonical.

(** Python equality is equality of canonical representatives: a boolean
    stands for the integer it equals. *)
Definition canon (v : value) : value :=
  match v with
  | VBool b => VInt (Z.b2z b)
  | _ => v
  end.

End Canonical.

Module UpRule.
Import StatusCollector.

(** The statuses that count as up. *)
Definition UP_STATUSES : list string := ["available"; "online"; "running"].

(** The decision of the specification, on the fields of the record. *)
Definition reported_up (entry : Py.dict) : Prop :=
  Py.truthy (Py.get entry "quorate") = true \/
  Py.truthy (Py.get entry "online") = true \/
  exists s, In s UP_STATUSES /\ Py.get entry "status" = VStr s.

(** The type of the record is one of [SUPPORTED_UP_RES_TYPES]. *)
Definition supported_kind (entry : Py.dict) : Prop :=
  exists t, In t SUPPORTED_UP_RES_TYPES /\ Py.get entry "type" = VStr t.

End UpRule.

Module Dedup.
Import LabelingCollectorBase StatusCollector.

(** The records the collector walks through: the resources first, the
    status entries after them. *)
Definition chain (pve : ProxmoxAPI) : list Py.dict :=
  cluster_resources pve ++ cluster_status pve.

(** The identity of a record: [labels['id']] of its known labels. *)
Definition identity (entry : Py.dict) : result value :=
  labels <- get_known_labels entry None ;; Py.getitem labels "id".

(** [bears i entry]: the record has an identity and it equals [i]. *)
Definition bears (i : value) (entry : Py.dict) : bool :=
  match identity entry with
  | Ok j => Py.eqb j i
  | Raise _ => false
  end.

(** The sample of one record, from its own labels and its own status. *)
Definition sample_of (entry : Py.dict) : result (Sample string) :=
  labels <- get_known_labels entry None ;;
  is_up <- is_entry_up entry ;;
  Ok (mkSample (get_label_values labels (Some KNOWN_LABEL_KEYS)) is_up).

(** The records whose identity no earlier record (and no member of [seen])
    bears, in their order. *)
Fixpoint first_records (seen : list value) (entries : list Py.dict) : list Py.dict :=
  match entries with
  | [] => []
  | entry :: rest =>
      match identity entry with
      | Ok i =>
          if Py.contains seen i then first_records seen rest
          else entry :: first_records (i :: seen) rest
      | Raise _ => first_records seen rest
      end
  end.

End Dedup.

Module UpValue.

(** The object [quorate or online or status in [...]]. *)
Definition up_value (entry : Py.dict) : value :=
  Py.or_ (Py.or_ (Py.get entry "quorate") (Py.get entry "online"))
         (VBool (Py.contains (map VStr UpRule.UP_STATUSES) (Py.get entry "status"))).

(** [v == 1.0 or v == 0.0] *)
Definition one_or_zero (v : value) : Prop :=
  Py.eqb v (VInt 1) = true \/ Py.eqb v (VInt 0) = true.

(** A flag as the API sends it: absent or [None], a boolean, 0 or 1. *)
Definition flag (v : value) : Prop :=
  v = VNone \/ (exists b, v = VBool b) \/ v = VInt 0 \/ v = VInt 1.

End UpValue.

Module Whitelist.
Import VersionCollector.

(** The key of the item is in [LABEL_WHITELIST]. *)
Definition allowed (item : string * value) : bool :=
  existsb (String.eqb (fst item)) LABEL_WHITELIST.

End Whitelist.

Module Routing.
Import LabelingCollectorBase ClusterResourcesCollector.

(** The label values of a record, as the collector computes them. *)
Definition label_values_of (resource : Py.dict) : result (list string) :=
  labels <- get_known_labels resource None ;; Ok (get_label_values labels None).

(** What one record gives to the family of [field]: a sample with the
    record's label values and the field's value when the field is there,
    nothing otherwise. *)
Definition contribution (field : string) (resource : Py.dict) : list (Sample string) :=
  match Py.lookup resource field, label_values_of resource with
  | Some v, Ok label_values => [mkSample label_values v]
  | _, _ => []
  end.

(** The keys and the names of a store, which no update changes. *)
Definition names (fs : families) : list (string * string) :=
  map (fun entry => (fst entry, name (snd entry))) fs.

(** The samples one record adds to the family of [key], without the
    assumption that its keys are distinct. *)
Definition routed (label_values : list string) (key : string) (resource : Py.dict)
  : list (Sample string) :=
  map (fun item => mkSample label_values (snd item))
      (filter (fun item => (fst item =? key)%string) resource).

End Routing.

(** What the specification says of the node and cluster info: the matching
    records, the bookkeeping fields taken out, the schema of the first. *)
Module SchemaSpec.

Definition matching (kind : string) (status : list Py.dict) : list Py.dict :=
  filter (fun entry => Py.eqb (Py.get entry "type") (VStr kind)) status.

Definition strip_node (node : Py.dict) : Py.dict :=
  Py.remove (Py.remove node "type") "online".

Definition strip_cluster (cluster : Py.dict) : Py.dict :=
  Py.remove
    (Py.setitem (Py.remove cluster "type") "id"
                (VStr ("cluster/" ++ Py.str (Py.get cluster "name"))%string))
    "name".

Definition info_sample (schema : list string) (record : Py.dict) : Sample string :=
  mkSample (map (fun key => Py.str (Py.get record key)) schema) (VInt 1).

(** No family without a record; otherwise one family, its label names
    the fields of the first record, one sample per record. *)
Definition info_family (n doc : string) (records : list Py.dict)
  : list (GaugeMetricFamily string) :=
  match records with
  | [] => []
  | record0 :: _ =>
      [ mkFamily n doc (Py.keys record0) (map (info_sample (Py.keys record0)) records) ]
  end.

Definition node_info (status : list Py.dict) : list (GaugeMetricFamily string) :=
  info_family "pve_node_info" "Node info" (map strip_node (matching "node" status)).

Definition cluster_info (status : list Py.dict) : list (GaugeMetricFamily string) :=
  info_family "pve_cluster_info" "Cluster info"
              (map strip_cluster (matching "cluster" status)).

End SchemaSpec.

Module Ready.
Import SchemaSpec.

(** The fields the info collectors read with a subscript. *)
Definition has_type (entry : Py.dict) : Prop := Py.has_key entry "type" = true.

Definition has_online (entry : Py.dict) : Prop := Py.has_key entry "online" = true.

Definition has_name (entry : Py.dict) : Prop :=
  exists s, Py.lookup entry "name" = Some (VStr s).

(** Every record has the fields of the first one. *)
Definition uniform (records : list Py.dict) : Prop :=
  match records with
  | [] => True
  | record0 :: _ =>
      Forall (fun record =>
                Forall (fun key => Py.has_key record key = true) (Py.keys record0))
             records
  end.

(** The batches on which the node info collector returns. *)
Definition node_ready (status : list Py.dict) : Prop :=
  Forall has_type status /\
  Forall has_online (matching "node" status) /\
  uniform (map strip_node (matching "node" status)).

(** The batches on which the cluster info collector returns. *)
Definition cluster_ready (status : list Py.dict) : Prop :=
  Forall has_type status /\
  Forall has_name (matching "cluster" status) /\
  uniform (map strip_cluster (matching "cluster" status)).

End Ready.

Module IdLabel.
Import LabelingCollectorBase.

(** The value of the id label a record is given: its identity, downcast. *)
Definition id_label (entry : Py.dict) : string :=
  match Dedup.identity entry with
  | Ok i => downcast_label_value i
  | Raise _ => ""
  end.

(** The first label value of a sample, which is that of id. *)
Definition sample_id (s : Sample string) : string := hd "" (sample_labels s).

End IdLabel.

Module Closed.
Import LabelingCollectorBase ClusterResourcesCollector.

(** What one record gives to the info family [target] of [info_metrics]:
    a sample valued 1 when [info_lookup] sends its type there. *)
Definition info_contribution (target : string) (resource : Py.dict)
  : list (Sample string) :=
  match Py.get resource "type", Routing.label_values_of resource with
  | VStr t, Ok label_values =>
      match lookup_info t info_lookup with
      | Some target' =>
          if (target' =? target)%string then [mkSample label_values (VInt 1)] else []
      | None => []
      end
  | _, _ => []
  end.

(** The same, told by the types that count. *)
Definition info_sample_for (kinds : list string) (resource : Py.dict)
  : list (Sample string) :=
  match Routing.label_values_of resource with
  | Ok label_values =>
      if Py.contains (map VStr kinds) (Py.get resource "type")
      then [mkSample label_values (VInt 1)] else []
  | Raise _ => []
  end.

(** A store whose families each got the samples [f] gives for their key. *)
Definition grow (f : string -> list (Sample string)) (fs : families) : families :=
  map (fun entry => (fst entry, extend (snd entry) (f (fst entry)))) fs.

(** The families of a scrape, in closed form. *)
Definition expected (resources : list Py.dict) : list (GaugeMetricFamily string) :=
  map snd (grow (fun field => flat_map (Routing.contribution field) resources)
                (metrics_table KNOWN_LABEL_KEYS)) ++
  map snd (grow (fun target => flat_map (info_contribution target) resources)
                (info_metrics_table KNOWN_LABEL_KEYS)).

(** Two lists of families put together family by family. *)
Definition merge (fams1 fams2 : list (GaugeMetricFamily string))
  : list (GaugeMetricFamily string) :=
  map (fun pair => extend (fst pair) (samples (snd pair))) (combine fams1 fams2).

(** What [route_info] adds to the info family of [key]. *)
Definition info_step (key : string) (label_values : list string) (restype : value)
  : list (Sample string) :=
  match restype with
  | VStr t =>
      match lookup_info t info_lookup with
      | Some target =>
          if (target =? key)%string then [mkSample label_values (VInt 1)] else []
      | None => []
      end
  | _ => []
  end.

End Closed.

Module Shape.

(** Every sample of the family has one label value per label name. *)
Definition well_shaped {L : Type} (fam : GaugeMetricFamily L) : Prop :=
  Forall (fun s => List.length (sample_labels s) = List.length (labelnames fam))
         (samples fam).

End Shape.

(** ** Records used as concrete inputs *)

Module Examples.

Definition node_resource : Py.dict :=
  [ ("type", VStr "node"); ("id", VStr "node/pve1"); ("node", VStr "pve1");
    ("online", VBool true) ].

Definition qemu_resource : Py.dict :=
  [ ("type", VStr "qemu"); ("id", VStr "qemu/100"); ("node", VStr "pve1");
    ("status", VStr "running"); ("maxmem", VInt 1073741824);
    ("mem", VInt 536870912) ].

Definition storage_resource : Py.dict :=
  [ ("type", VStr "storage"); ("id", VStr "storage/pve1/local-lvm");
    ("node", VStr "pve1"); ("storage", VStr "local-lvm");
    ("status", VStr "available"); ("maxdisk", VInt 1000); ("disk", VInt 10) ].

Definition node_status : Py.dict :=
  [ ("type", VStr "node"); ("id", VStr "node/pve1"); ("name", VStr "pve1");
    ("online", VInt 1); ("ip", VStr "10.20.30.40"); ("local", VInt 1) ].

Definition cluster_status_entry : Py.dict :=
  [ ("type", VStr "cluster"); ("name", VStr "pvec"); ("quorate", VInt 1);
    ("nodes", VInt 2) ].

Definition version_answer : Py.dict :=
  [ ("version", VStr "4.4"); ("keyboard", VStr "de"); ("release", VStr "15");
    ("repoid", VStr "7599e35a") ].

Definition pve : ProxmoxAPI :=
  mkAPI [node_resource; qemu_resource; storage_resource]
        [node_status; cluster_status_entry]
        version_answer.

End Examples.

Module DuplicateExample.

(** An entry of an unsupported type that repeats the identity of the
    node of [Examples.pve]. *)
Definition pool_entry : Py.dict := [("type", VStr "pool"); ("id", VStr "node/pve1")].

Definition pve : ProxmoxAPI :=
  mkAPI [Examples.node_resource]
        [pool_entry; Examples.cluster_status_entry]
        Examples.version_answer.

End DuplicateExample.

Module QuorateExample.

(** A cluster entry whose quorate field is an integer other than 0 and 1. *)
Definition cluster_entry : Py.dict :=
  [("type", VStr "cluster"); ("name", VStr "pvec"); ("quorate", VInt 2)].

Definition pve : ProxmoxAPI := mkAPI [] [cluster_entry] Examples.version_answer.

End QuorateExample.

Module SparseExample.

(** A guest that reports its memory and what it sent, not what it
    received. *)
Definition guest : Py.dict :=
  [ ("type", VStr "lxc"); ("id", VStr "lxc/101"); ("node", VStr "pve1");
    ("name", VStr "ct"); ("maxmem", VInt 2048); ("netout", VInt 17) ].

Definition pve : ProxmoxAPI :=
  mkAPI [Examples.qemu_resource; guest] [] Examples.version_answer.

End SparseExample.

Module AbsentExample.

(** A node entry without online and a cluster entry without name. *)
Definition node_entry : Py.dict := [("type", VStr "node"); ("name", VStr "pve1")].
Definition cluster_entry : Py.dict := [("type", VStr "cluster"); ("quorate", VInt 1)].

(** A resource with nothing but its type. *)
Definition bare_resource : Py.dict := [("type", VStr "qemu")].

Definition pve : ProxmoxAPI :=
  mkAPI [bare_resource] [node_entry; cluster_entry] Examples.version_answer.

End AbsentExample.

Module PrecedenceExample.

(** The node of [Examples.pve] as the status source describes it, here
    reported offline, after the resource that reports it online. *)
Definition offline_status : Py.dict :=
  [ ("type", VStr "node"); ("id", VStr "node/pve1"); ("name", VStr "pve1");
    ("online", VInt 0) ].

Definition pve : ProxmoxAPI :=
  mkAPI [Examples.node_resource] [offline_status] Examples.version_answer.

End PrecedenceExample.

Module DivergenceExample.

(** A second node that does not report its address. *)
Definition silent_node : Py.dict :=
  [ ("type", VStr "node"); ("id", VStr "node/pve2"); ("name", VStr "pve2");
    ("online", VInt 1); ("local", VInt 0) ].

Definition pve : ProxmoxAPI :=
  mkAPI [] [Examples.node_status; silent_node] Examples.version_answer.

End DivergenceExample.

(** * Properties *)

(** ** The error monad and the loops *)

Lemma bind_Ok_inv {A B : Type} (m : result A) (k : A -> result B) (b : B) :
  (x <- m ;; k x) = Ok b -> exists a, m = Ok a /\ k a = Ok b.
Proof.
  destruct m as [a | e]; simpl; intros H; [ eauto | discriminate ].
Qed.

Ltac bind_inv H :=
  let a := fresh "a" in
  let Ha := fresh "Ha" in
  apply bind_Ok_inv in H; destruct H as (a & Ha & H).

Lemma for_each_app {S A : Type} (body : S -> A -> result S) (xs ys : list A) (acc : S) :
  for_each body (xs ++ ys) acc = (mid <- for_each body xs acc ;; for_each body ys mid).
Proof.
  revert acc; induction xs as [| x xs IH]; intros acc; simpl; [ reflexivity | ].
  destruct (body acc x); simpl; auto.
Qed.

Lemma map_each_Ok_map {A B : Type} (f : A -> result B) (g : A -> B) (xs : list A) :
  (forall x, In x xs -> f x = Ok (g x)) -> map_each f xs = Ok (map g xs).
Proof.
  induction xs as [| x xs IH]; intros H; simpl; [ reflexivity | ].
  rewrite (H x) by (left; reflexivity); simpl.
  rewrite IH by (intros y Hy; apply H; right; exact Hy); reflexivity.
Qed.

Lemma map_each_Ok_inv {A B : Type} (f : A -> result B) (xs : list A) (ys : list B) :
  map_each f xs = Ok ys -> Forall2 (fun x y => f x = Ok y) xs ys.
Proof.
  revert ys; induction xs as [| x xs IH]; intros ys H; simpl in H.
  - injection H as <-; constructor.
  - bind_inv H. bind_inv H. injection H as <-. constructor; auto.
Qed.

(** ** Python equality *)

Module PyFacts.
Import Canonical.

Lemma eqb_canon (a b : value) : Py.eqb a b = true <-> canon a = canon b.
Proof.
  destruct a, b; simpl; split; intros H;
    try discriminate; try reflexivity;
    try (apply Z.eqb_eq in H; congruence);
    try (apply String.eqb_eq in H; congruence);
    try (apply Z.eqb_eq; congruence);
    try (apply String.eqb_eq; congruence).
Qed.

Lemma eqb_refl (a : value) : Py.eqb a a = true.
Proof. apply eqb_canon; reflexivity. Qed.

Lemma eqb_sym (a b : value) : Py.eqb a b = Py.eqb b a.
Proof.
  destruct (Py.eqb a b) eqn:Hab, (Py.eqb b a) eqn:Hba; try reflexivity.
  - apply eqb_canon in Hab. symmetry in Hab. apply eqb_canon in Hab. congruence.
  - apply eqb_canon in Hba. symmetry in Hba. apply eqb_canon in Hba. congruence.
Qed.

Lemma eqb_trans (a b c : value) :
  Py.eqb a b = true -> Py.eqb b c = true -> Py.eqb a c = true.
Proof. rewrite !eqb_canon; congruence. Qed.

Lemma eqb_str (v : value) (s : string) :
  Py.eqb v (VStr s) = true <-> v = VStr s.
Proof.
  split.
  - destruct v; simpl; try discriminate.
    intros H; apply String.eqb_eq in H; congruence.
  - intros ->; apply eqb_refl.
Qed.

Lemma contains_eqb (xs : list value) (a b : value) :
  Py.eqb a b = true -> Py.contains xs a = true -> Py.contains xs b = true.
Proof.
  unfold Py.contains; intros Hab Ha.
  apply existsb_exists in Ha; destruct Ha as (x & Hx & Hax).
  apply existsb_exists; exists x; split; [ exact Hx | ].
  apply eqb_trans with a; [ rewrite eqb_sym; exact Hab | exact Hax ].
Qed.

Lemma contains_strs (strs : list string) (v : value) :
  Py.contains (map VStr strs) v = true <-> exists s, In s strs /\ v = VStr s.
Proof.
  unfold Py.contains; rewrite existsb_exists; split.
  - intros (x & Hx & Hv). apply in_map_iff in Hx; destruct Hx as (s & <- & Hs).
    exists s; split; [ exact Hs | apply eqb_str; exact Hv ].
  - intros (s & Hs & ->). exists (VStr s); split;
      [ apply in_map; exact Hs | apply eqb_refl ].
Qed.

(** *** Dictionaries *)

Lemma lookup_setitem (d : Py.dict) (k k' : string) (v : value) :
  Py.lookup (Py.setitem d k v) k' =
  if (k =? k')%string then Some v else Py.lookup d k'.
Proof.
  induction d as [| [k0 v0] d IH]; simpl.
  - reflexivity.
  - destruct (String.eqb_spec k0 k) as [-> | Hne]; simpl.
    + destruct (k =? k')%string; reflexivity.
    + rewrite IH. destruct (String.eqb_spec k0 k') as [-> | Hne'].
      * destruct (String.eqb_spec k k'); [ congruence | reflexivity ].
      * reflexivity.
Qed.

Lemma get_setitem (d : Py.dict) (k k' : string) (v : value) :
  Py.get (Py.setitem d k v) k' = if (k =? k')%string then v else Py.get d k'.
Proof.
  unfold Py.get; rewrite lookup_setitem; destruct (k =? k')%string; reflexivity.
Qed.

Lemma has_key_setitem (d : Py.dict) (k k' : string) (v : value) :
  Py.has_key (Py.setitem d k v) k' = ((k =? k')%string || Py.has_key d k').
Proof.
  unfold Py.has_key; rewrite lookup_setitem; destruct (k =? k')%string; reflexivity.
Qed.

Lemma lookup_copy (resource labels : Py.dict) (label_keys : list string) (k : string) :
  Py.lookup (fold_left (fun acc key => Py.setitem acc key (Py.get resource key))
                       label_keys labels) k =
  if existsb (String.eqb k) label_keys then Some (Py.get resource k)
  else Py.lookup labels k.
Proof.
  revert labels; induction label_keys as [| key rest IH]; intros labels; simpl.
  - reflexivity.
  - rewrite IH, lookup_setitem.
    destruct (existsb (String.eqb k) rest); simpl.
    + rewrite orb_true_r; reflexivity.
    + rewrite orb_false_r, String.eqb_sym.
      destruct (String.eqb_spec k key) as [-> | _]; reflexivity.
Qed.

End PyFacts.

(** ** Label normalisation *)

Module LabelFacts.
Import LabelKeys.
Import LabelingCollectorBase PyFacts.

Lemma has_key_copy (resource : Py.dict) (label_keys : list string) (k : string) :
  Py.has_key (copy_labels resource label_keys) k = existsb (String.eqb k) label_keys.
Proof.
  unfold Py.has_key, copy_labels; rewrite lookup_copy.
  destruct (existsb (String.eqb k) label_keys); reflexivity.
Qed.

Lemma get_copy (resource : Py.dict) (label_keys : list string) (k : string) :
  Py.get (copy_labels resource label_keys) k =
  if existsb (String.eqb k) label_keys then Py.get resource k else VNone.
Proof.
  unfold Py.get at 1, copy_labels; rewrite lookup_copy.
  destruct (existsb (String.eqb k) label_keys); reflexivity.
Qed.

Lemma existsb_eqb_In (k : string) (ks : list string) :
  existsb (String.eqb k) ks = true <-> In k ks.
Proof.
  rewrite existsb_exists; split.
  - intros (x & Hx & Heq); apply String.eqb_eq in Heq; subst; exact Hx.
  - intros H; exists k; split; [ exact H | apply String.eqb_refl ].
Qed.

(** The labels that come back are the requested ones, whatever overrides
    were applied. *)
Lemma get_known_labels_has_key resource label_keys labels (k : string) :
  get_known_labels resource label_keys = Ok labels ->
  Py.has_key labels k = existsb (String.eqb k) (requested label_keys).
Proof.
  unfold get_known_labels; fold (requested label_keys).
  set (ks := requested label_keys).
  set (copied := copy_labels resource ks).
  assert (Hcopied : forall k', Py.has_key copied k' = existsb (String.eqb k') ks)
    by (intros k'; apply has_key_copy).
  set (named := if Py.has_key copied "name" then _ else copied).
  assert (Hnamed : Py.has_key named k = existsb (String.eqb k) ks).
  { subst named. destruct (Py.has_key copied "name") eqn:Hname; [ | apply Hcopied ].
    repeat match goal with
           | |- context [if ?c then _ else _] => destruct c
           end; try apply Hcopied;
      rewrite has_key_setitem, <- Hcopied;
      (destruct (String.eqb_spec "name" k) as [<- | _]; [ rewrite Hname | ]; reflexivity). }
  destruct (Py.has_key named "id") eqn:Hid; [ | intros [= <-]; exact Hnamed ].
  destruct (Py.eqb (Py.get named "type") (VStr "cluster")); [ | intros [= <-]; exact Hnamed ].
  intros H; bind_inv H; injection H as <-.
  rewrite has_key_setitem, <- Hnamed.
  destruct (String.eqb_spec "id" k) as [<- | _]; [ rewrite Hid | ]; reflexivity.
Qed.

(** With the default label names, the identity [labels['id']] exists. *)
Lemma getitem_id resource labels :
  get_known_labels resource None = Ok labels ->
  Py.getitem labels "id" = Ok (Py.get labels "id").
Proof.
  intros H. apply get_known_labels_has_key with (k := "id") in H.
  unfold Py.has_key in H; unfold Py.getitem, Py.get.
  destruct (Py.lookup labels "id"); [ reflexivity | discriminate ].
Qed.


(** The same holds for a cluster record whose name is a string. *)
Lemma get_known_labels_total_named resource label_keys (s : string) :
  Py.get resource "name" = VStr s ->
  exists labels, get_known_labels resource label_keys = Ok labels.
Proof.
  intros Hname. unfold get_known_labels; rewrite Hname; simpl.
  repeat match goal with
         | |- context [if ?c then _ else _] => destruct c
         end; eauto.
Qed.

(** Where "type" is among the requested labels, the overrides follow the
    record's own type. *)
Lemma get_known_labels_overrides resource label_keys labels :
  get_known_labels resource label_keys = Ok labels ->
  In "type" (requested label_keys) ->
  (In "name" (requested label_keys) -> Py.get resource "type" = VStr "storage" ->
   Py.get labels "name" = Py.get resource "storage") /\
  (In "name" (requested label_keys) -> Py.get resource "type" = VStr "node" ->
   Py.get labels "name" = Py.get resource "node") /\
  (In "id" (requested label_keys) -> Py.get resource "type" = VStr "cluster" ->
   exists s, Py.get resource "name" = VStr s /\
             Py.get labels "id" = VStr ("cluster/" ++ s)%string).
Proof.
  unfold get_known_labels; fold (requested label_keys).
  set (ks := requested label_keys).
  intros H Hty.
  apply existsb_eqb_In in Hty.
  assert (Hget : Py.get (copy_labels resource ks) "type" = Py.get resource "type")
    by (rewrite get_copy, Hty; reflexivity).
  rewrite !Hget in H.
  assert (Hhas : forall k, In k ks -> Py.has_key (copy_labels resource ks) k = true)
    by (intros k Hk; rewrite has_key_copy; apply existsb_eqb_In; exact Hk).
  repeat split.
  - intros Hname Hst. rewrite (Hhas _ Hname), Hst in H. simpl in H.
    rewrite has_key_setitem, get_setitem in H. simpl in H.
    destruct (Py.has_key _ "id"); [ rewrite Hget, Hst in H; simpl in H | ];
      injection H as <-; rewrite get_setitem; reflexivity.
  - intros Hname Hnd. rewrite (Hhas _ Hname), Hnd in H. simpl in H.
    rewrite has_key_setitem, get_setitem in H. simpl in H.
    destruct (Py.has_key _ "id"); [ rewrite Hget, Hnd in H; simpl in H | ];
      injection H as <-; rewrite get_setitem; reflexivity.
  - intros Hid Hcl. rewrite Hcl in H. simpl in H.
    destruct (Py.has_key _ "name"); rewrite (Hhas _ Hid), Hget, Hcl in H;
      simpl in H; bind_inv H; injection H as <-;
      (destruct (Py.get resource "name") as [| b | z | s]; try discriminate;
       injection Ha as <-; exists s; split;
       [ reflexivity | rewrite get_setitem; reflexivity ]).
Qed.

End LabelFacts.

(** ** [downcast_label_value] *)

(** C9.  The label downcast: [None] becomes the empty string, [True] and
    [False] become "1" and "0", and every other value becomes its string
    representation, which for an integer is its base-10 numeral (reading
    the label back as a decimal numeral gives the integer; 42 gives "42")
    and for a string the string itself. *)
Theorem downcast_label_value_law :
  LabelingCollectorBase.downcast_label_value VNone = "" /\
  LabelingCollectorBase.downcast_label_value (VBool true) = "1" /\
  LabelingCollectorBase.downcast_label_value (VBool false) = "0" /\
  (forall z, LabelingCollectorBase.downcast_label_value (VInt z) = Py.str (VInt z)) /\
  (forall s, LabelingCollectorBase.downcast_label_value (VStr s) = Py.str (VStr s)) /\
  (forall z, option_map Z.of_int
               (NilZero.int_of_string
                  (LabelingCollectorBase.downcast_label_value (VInt z))) = Some z) /\
  (forall s, LabelingCollectorBase.downcast_label_value (VStr s) = s) /\
  LabelingCollectorBase.downcast_label_value (VInt 42) = "42" /\
  LabelingCollectorBase.downcast_label_value (VInt (-7)) = "-7" /\
  LabelingCollectorBase.downcast_label_value (VInt 0) = "0".
Proof.
  repeat split; try reflexivity.
  intros z; simpl.
  rewrite NilZero.isi.
  - simpl; rewrite DecimalZ.of_to; reflexivity.
  - destruct z; simpl; try discriminate.
    intros [= H]; revert H; apply DecimalPos.Unsigned.to_uint_nonnil.
  - destruct z; simpl; try discriminate.
    intros [= H]; revert H; apply DecimalPos.Unsigned.to_uint_nonnil.
Qed.

(** ** [StatusCollector.is_entry_up] *)

Module StatusFacts.
Import UpRule.
Import LabelingCollectorBase StatusCollector PyFacts LabelFacts.

Lemma supported_kind_contains entry :
  Py.contains (map VStr SUPPORTED_UP_RES_TYPES) (Py.get entry "type") = true <->
  supported_kind entry.
Proof. apply contains_strs. Qed.

Lemma truthy_or (a b : value) :
  Py.truthy (Py.or_ a b) = (Py.truthy a || Py.truthy b)%bool.
Proof. unfold Py.or_; destruct (Py.truthy a) eqn:Ha; simpl; auto. Qed.

Lemma is_entry_up_supported entry :
  supported_kind entry ->
  is_entry_up entry =
  Ok (Py.or_ (Py.or_ (Py.get entry "quorate") (Py.get entry "online"))
             (VBool (Py.contains (map VStr UP_STATUSES) (Py.get entry "status")))).
Proof.
  intros H; apply supported_kind_contains in H.
  unfold is_entry_up; rewrite H; reflexivity.
Qed.

Lemma is_entry_up_unsupported entry :
  ~ supported_kind entry ->
  exists e, is_entry_up entry = Raise e /\
            forall t, Py.get entry "type" = VStr t ->
                      e = ValueError ("Got unexpected status entry type " ++ t)%string.
Proof.
  intros H. unfold is_entry_up.
  destruct (Py.contains _ _) eqn:Hc; [ apply supported_kind_contains in Hc; tauto | ].
  simpl. destruct (Py.get entry "type") as [| b | z | s]; simpl;
    eexists; (split; [ reflexivity | ]); intros t [=]; subst; reflexivity.
Qed.

End StatusFacts.

(** ** [get_known_labels] *)

(** C3.  The overrides of [get_known_labels] are keyed on the "type" label
    it copied, not on the record's type: when "type" is not among the
    requested label names, a storage or node record keeps the name it has
    (here none) and a cluster record gets no identity. *)
Theorem get_known_labels_override_without_type_label :
  LabelingCollectorBase.get_known_labels
    [("type", VStr "storage"); ("storage", VStr "local-lvm")] (Some ["name"])
  = Ok [("name", VNone)] /\
  LabelingCollectorBase.get_known_labels
    [("type", VStr "node"); ("node", VStr "pve1")] (Some ["name"])
  = Ok [("name", VNone)] /\
  LabelingCollectorBase.get_known_labels
    [("type", VStr "cluster"); ("name", VStr "pvec")] (Some ["id"])
  = Ok [("id", VNone)] /\
  LabelingCollectorBase.get_known_labels
    [("type", VStr "storage"); ("storage", VStr "local-lvm")] (Some ["name"; "type"])
  = Ok [("name", VStr "local-lvm"); ("type", VStr "storage")].
Proof. repeat split; reflexivity. Qed.

(** ** The loop of [StatusCollector.collect] *)

Lemma add_metric_extend {L : Type} (fam : GaugeMetricFamily L) lv v :
  add_metric fam lv v = extend fam [mkSample lv v].
Proof. reflexivity. Qed.

Lemma extend_nil {L : Type} (fam : GaugeMetricFamily L) : extend fam [] = fam.
Proof. destruct fam; unfold extend; simpl; rewrite app_nil_r; reflexivity. Qed.

Lemma extend_extend {L : Type} (fam : GaugeMetricFamily L) (a b : list (Sample L)) :
  extend (extend fam a) b = extend fam (a ++ b).
Proof. unfold extend; simpl; rewrite app_assoc; reflexivity. Qed.

Module DedupFacts.
Import Dedup.
Import LabelingCollectorBase StatusCollector PyFacts LabelFacts.

Lemma identity_labels entry labels :
  get_known_labels entry None = Ok labels ->
  identity entry = Ok (Py.get labels "id").
Proof.
  intros H; unfold identity; rewrite H; simpl. apply (getitem_id _ _ H).
Qed.

(** What one iteration does, by cases on the identity. *)
Lemma collect_entry_seen seen fam entry i :
  identity entry = Ok i -> Py.contains seen i = true ->
  collect_entry KNOWN_LABEL_KEYS (seen, fam) entry = Ok (seen, fam).
Proof.
  unfold identity, collect_entry; intros H Hseen.
  destruct (get_known_labels entry None) as [labels | e]; simpl in *; [ | discriminate ].
  rewrite H; simpl. rewrite Hseen; reflexivity.
Qed.

Lemma collect_entry_new seen fam entry i :
  identity entry = Ok i -> Py.contains seen i = false ->
  collect_entry KNOWN_LABEL_KEYS (seen, fam) entry =
  (s <- sample_of entry ;; Ok (i :: seen, extend fam [s])).
Proof.
  unfold identity, collect_entry, sample_of; intros H Hseen.
  destruct (get_known_labels entry None) as [labels | e]; simpl in *; [ | discriminate ].
  rewrite H; simpl. rewrite Hseen.
  destruct (is_entry_up entry); reflexivity.
Qed.

Lemma collect_entry_identity state entry state' :
  collect_entry KNOWN_LABEL_KEYS state entry = Ok state' ->
  exists i, identity entry = Ok i.
Proof.
  destruct state as [seen fam]; unfold collect_entry, identity.
  destruct (get_known_labels entry None) as [labels | e] eqn:Hl; simpl; [ | discriminate ].
  rewrite (getitem_id _ _ Hl); eauto.
Qed.

(** The loop emits the samples of the first records, in their order. *)
Lemma loop_samples entries : forall seen fam seen' fam',
  for_each (collect_entry KNOWN_LABEL_KEYS) entries (seen, fam) = Ok (seen', fam') ->
  Forall (fun entry => exists i, identity entry = Ok i) entries /\
  exists new, map_each sample_of (first_records seen entries) = Ok new /\
              fam' = extend fam new.
Proof.
  induction entries as [| entry rest IH]; intros seen fam seen' fam' H; cbn [for_each] in H.
  - injection H as <- <-. split; [ constructor | ].
    exists []; split; [ reflexivity | symmetry; apply extend_nil ].
  - bind_inv H. destruct (collect_entry_identity _ _ _ Ha) as [i Hi].
    simpl; rewrite Hi.
    destruct (Py.contains seen i) eqn:Hseen.
    + rewrite (collect_entry_seen _ _ _ _ Hi Hseen) in Ha; injection Ha as <-.
      destruct (IH _ _ _ _ H) as (Hall & new & Hnew & ->).
      split; [ constructor; eauto | eauto ].
    + rewrite (collect_entry_new _ _ _ _ Hi Hseen) in Ha.
      bind_inv Ha. injection Ha as <-.
      destruct (IH _ _ _ _ H) as (Hall & new & Hnew & ->).
      split; [ constructor; eauto | ].
      exists (a0 :: new); simpl; rewrite Ha0; simpl; rewrite Hnew; simpl.
      split; [ reflexivity | apply (extend_extend fam [a0] new) ].
Qed.

(** The set [processed_ids] holds what it held and the identity of every
    record the loop has gone through, and nothing else. *)
Lemma loop_seen entries : forall seen fam seen' fam' i,
  for_each (collect_entry KNOWN_LABEL_KEYS) entries (seen, fam) = Ok (seen', fam') ->
  Py.contains seen' i = (Py.contains seen i || existsb (bears i) entries)%bool.
Proof.
  induction entries as [| entry rest IH]; intros seen fam seen' fam' i H;
    cbn [for_each] in H.
  - injection H as <- <-. simpl; rewrite orb_false_r; reflexivity.
  - bind_inv H. destruct (collect_entry_identity _ _ _ Ha) as [j Hj].
    assert (Hb : bears i entry = Py.eqb j i) by (unfold bears; rewrite Hj; reflexivity).
    cbn [existsb]; rewrite Hb.
    destruct (Py.contains seen j) eqn:Hseen.
    + rewrite (collect_entry_seen _ _ _ _ Hj Hseen) in Ha; injection Ha as <-.
      rewrite (IH _ _ _ _ i H).
      destruct (Py.eqb j i) eqn:Hji; [ | reflexivity ].
      rewrite (contains_eqb _ _ _ Hji Hseen); reflexivity.
    + rewrite (collect_entry_new _ _ _ _ Hj Hseen) in Ha.
      bind_inv Ha. injection Ha as <-.
      rewrite (IH _ _ _ _ i H).
      replace (Py.contains (j :: seen) i)
        with (Py.eqb i j || Py.contains seen i)%bool by reflexivity.
      rewrite (eqb_sym i j).
      destruct (Py.eqb j i), (Py.contains seen i); reflexivity.
Qed.

Lemma first_records_incl entries : forall seen entry,
  In entry (first_records seen entries) -> In entry entries.
Proof.
  induction entries as [| e rest IH]; intros seen entry; cbn [first_records].
  - tauto.
  - destruct (identity e) as [i | err]; [ destruct (Py.contains seen i) | ];
      simpl; intros H; try (right; eapply IH; exact H).
    destruct H as [H | H]; [ left; exact H | right; eapply IH; exact H ].
Qed.

(** The loop, and so the collector, returns when every record has a
    sample of its own. *)
Lemma status_loop_returns entries : forall seen fam,
  Forall (fun entry => exists s, sample_of entry = Ok s) entries ->
  exists final, for_each (collect_entry KNOWN_LABEL_KEYS) entries (seen, fam) = Ok final.
Proof.
  induction entries as [| entry rest IH]; intros seen fam Hall; cbn [for_each].
  - eauto.
  - inversion Hall as [| ? ? [s Hs] Hrest]; subst.
    assert (Hid : exists i, identity entry = Ok i).
    { unfold sample_of in Hs. bind_inv Hs. eauto using identity_labels. }
    destruct Hid as [i Hi].
    destruct (Py.contains seen i) eqn:Hseen.
    + rewrite (collect_entry_seen _ _ _ _ Hi Hseen); simpl. apply IH; exact Hrest.
    + rewrite (collect_entry_new _ _ _ _ Hi Hseen), Hs; simpl. apply IH; exact Hrest.
Qed.

(** Among the first records exactly one bears a given identity: the first
    record of the input that bears it. *)
Lemma first_records_filter entries : forall seen i,
  Forall (fun entry => exists j, identity entry = Ok j) entries ->
  filter (bears i) (first_records seen entries) =
  if Py.contains seen i then []
  else match find (bears i) entries with
       | Some entry => [entry]
       | None => []
       end.
Proof.
  induction entries as [| entry rest IH]; intros seen i Hall;
    cbn [first_records find].
  - destruct (Py.contains seen i); reflexivity.
  - inversion Hall as [| ? ? [j Hj] Hrest]; subst.
    assert (Hb : bears i entry = Py.eqb j i) by (unfold bears; rewrite Hj; reflexivity).
    rewrite Hj, Hb.
    destruct (Py.contains seen j) eqn:Hseen.
    + rewrite (IH _ _ Hrest).
      destruct (Py.contains seen i) eqn:Hi; [ reflexivity | ].
      destruct (Py.eqb j i) eqn:Hji; [ | reflexivity ].
      rewrite (contains_eqb _ _ _ Hji Hseen) in Hi; discriminate.
    + cbn [filter]. rewrite Hb, (IH _ _ Hrest).
      replace (Py.contains (j :: seen) i)
        with (Py.eqb i j || Py.contains seen i)%bool by reflexivity.
      rewrite (eqb_sym i j).
      destruct (Py.eqb j i) eqn:Hji; cbn [orb].
      * destruct (Py.contains seen i) eqn:Hi; [ | reflexivity ].
        rewrite eqb_sym in Hji.
        rewrite (contains_eqb _ _ _ Hji Hi) in Hseen; discriminate.
      * reflexivity.
Qed.

End DedupFacts.

(** ** [StatusCollector.collect] *)

Lemma status_collect_loop (pve : ProxmoxAPI) fams :
  StatusCollector.collect pve = Ok fams ->
  exists seen new,
    for_each (StatusCollector.collect_entry LabelingCollectorBase.KNOWN_LABEL_KEYS)
             (Dedup.chain pve)
             ([], new_family "pve_up" "Node/VM/CT-Status is online/running"
                             LabelingCollectorBase.KNOWN_LABEL_KEYS)
    = Ok (seen, extend (new_family "pve_up" "Node/VM/CT-Status is online/running"
                                   LabelingCollectorBase.KNOWN_LABEL_KEYS) new) /\
    fams = [extend (new_family "pve_up" "Node/VM/CT-Status is online/running"
                               LabelingCollectorBase.KNOWN_LABEL_KEYS) new] /\
    Forall (fun entry => exists i, Dedup.identity entry = Ok i)
           (Dedup.chain pve) /\
    map_each Dedup.sample_of
             (Dedup.first_records [] (Dedup.chain pve)) = Ok new.
Proof.
  unfold StatusCollector.collect; fold (Dedup.chain pve); intros H.
  bind_inv H. destruct a as [seen fam]. injection H as <-.
  destruct (DedupFacts.loop_samples _ _ _ _ _ Ha) as (Hall & new & Hnew & ->).
  exists seen, new; auto.
Qed.

(** The collector returns when every record of the two sources has a
    sample of its own. *)
Lemma status_collect_returns (pve : ProxmoxAPI) :
  Forall (fun entry => exists s, Dedup.sample_of entry = Ok s)
         (Dedup.chain pve) ->
  exists fams, StatusCollector.collect pve = Ok fams.
Proof.
  intros Hall. unfold StatusCollector.collect; fold (Dedup.chain pve).
  destruct (DedupFacts.status_loop_returns _ [] (new_family "pve_up"
              "Node/VM/CT-Status is online/running"
              LabelingCollectorBase.KNOWN_LABEL_KEYS) Hall) as [final ->].
  simpl; eauto.
Qed.

(** C1.  On the resources followed by the status entries, a scrape that
    returns gives one family whose samples are, in order, the samples of
    the first records of each identity: for every identity borne by a
    record of the input, exactly one of the records sampled bears it, the
    first record of the input that does, and the sample is made from that
    record's own labels and status. *)
Theorem status_one_sample_per_identity (pve : ProxmoxAPI)
  (fams : list (GaugeMetricFamily string)) :
  StatusCollector.collect pve = Ok fams ->
  exists fam sampled,
    fams = [fam] /\
    sampled = Dedup.first_records [] (Dedup.chain pve) /\
    Forall2 (fun entry s => Dedup.sample_of entry = Ok s) sampled (samples fam) /\
    forall entry i,
      In entry (Dedup.chain pve) -> Dedup.identity entry = Ok i ->
      exists entry0,
        find (Dedup.bears i) (Dedup.chain pve) = Some entry0 /\
        filter (Dedup.bears i) sampled = [entry0].
Proof.
  intros H. destruct (status_collect_loop _ _ H) as (seen & new & _ & -> & Hall & Hnew).
  eexists; eexists; split; [ reflexivity | split; [ reflexivity | split ] ].
  - simpl. apply map_each_Ok_inv; exact Hnew.
  - intros entry i Hin Hi.
    rewrite (DedupFacts.first_records_filter _ [] i Hall); simpl.
    destruct (find (Dedup.bears i) (Dedup.chain pve)) as [entry0 |] eqn:Hfind.
    + eauto.
    + exfalso. apply (find_none _ _ Hfind) in Hin.
      unfold Dedup.bears in Hin; rewrite Hi, PyFacts.eqb_refl in Hin; discriminate.
Qed.

Lemma status_one_sample_per_identity_witness :
  exists fam sampled,
    [ mkFamily "pve_up" "Node/VM/CT-Status is online/running"
        ["id"; "name"; "node"; "template"; "type"]
        [ mkSample ["node/pve1"; "pve1"; "pve1"; ""; "node"] (VBool true);
          mkSample ["qemu/100"; ""; "pve1"; ""; "qemu"] (VBool true);
          mkSample ["storage/pve1/local-lvm"; "local-lvm"; "pve1"; ""; "storage"]
                   (VBool true);
          mkSample ["cluster/pvec"; "pvec"; ""; ""; "cluster"] (VInt 1) ] ] = [fam] /\
    sampled = Dedup.first_records [] (Dedup.chain Examples.pve) /\
    Forall2 (fun entry s => Dedup.sample_of entry = Ok s) sampled (samples fam) /\
    forall entry i,
      In entry (Dedup.chain Examples.pve) -> Dedup.identity entry = Ok i ->
      exists entry0,
        find (Dedup.bears i) (Dedup.chain Examples.pve) = Some entry0 /\
        filter (Dedup.bears i) sampled = [entry0].
Proof.
  apply (status_one_sample_per_identity Examples.pve). reflexivity.
Defined.

(** C10.  The duplicate test comes before the kind test.  A record whose
    identity an earlier record already bears is passed over whatever its
    type is: the scrape ends as the scrape without that record does, so
    it returns the same families when that one returns and an unsupported
    type on the duplicate raises nothing.  The kind test is reached for a
    record that is the first of its identity: there an unsupported type
    makes the scrape raise. *)
Theorem status_duplicate_skipped_before_kind_check (pve : ProxmoxAPI)
  (pre : list Py.dict) (entry : Py.dict) (post : list Py.dict) (i : value) :
  Dedup.chain pve = pre ++ entry :: post ->
  Dedup.identity entry = Ok i ->
  (existsb (Dedup.bears i) pre = true ->
   StatusCollector.collect pve =
   StatusCollector.collect (mkAPI (pre ++ post) [] (version pve))) /\
  (existsb (Dedup.bears i) pre = false ->
   ~ UpRule.supported_kind entry ->
   exists e, StatusCollector.collect pve = Raise e).
Proof.
  intros Hchain Hi.
  unfold StatusCollector.collect.
  fold (Dedup.chain pve); rewrite Hchain; cbn [cluster_resources cluster_status].
  rewrite app_nil_r, !for_each_app.
  destruct (for_each _ pre _) as [[seen fam] | e] eqn:Hpre;
    cbn [bind for_each]; [ | split; [ reflexivity | eauto ] ].
  pose proof (DedupFacts.loop_seen _ _ _ _ _ i Hpre) as Hseen; simpl in Hseen.
  split; intros Hdup.
  - rewrite Hdup in Hseen.
    rewrite (DedupFacts.collect_entry_seen _ _ _ _ Hi Hseen); reflexivity.
  - intros Hkind. rewrite Hdup in Hseen.
    rewrite (DedupFacts.collect_entry_new _ _ _ _ Hi Hseen).
    destruct (StatusFacts.is_entry_up_unsupported _ Hkind) as (e & He & _).
    unfold Dedup.sample_of. unfold Dedup.identity in Hi.
    destruct (LabelingCollectorBase.get_known_labels entry None); simpl in *;
      [ rewrite He; simpl; eauto | discriminate ].
Qed.

Lemma status_duplicate_skipped_before_kind_check_witness :
  (exists e, StatusCollector.is_entry_up DuplicateExample.pool_entry = Raise e) /\
  StatusCollector.collect DuplicateExample.pve =
  StatusCollector.collect
    (mkAPI ([Examples.node_resource] ++ [Examples.cluster_status_entry]) []
           Examples.version_answer) /\
  (exists fams, StatusCollector.collect DuplicateExample.pve = Ok fams) /\
  (exists e, StatusCollector.collect
               (mkAPI [DuplicateExample.pool_entry] [] Examples.version_answer)
             = Raise e).
Proof.
  split; [ eexists; reflexivity | split; [ | split ] ].
  - refine (proj1 (status_duplicate_skipped_before_kind_check DuplicateExample.pve
                     [Examples.node_resource] DuplicateExample.pool_entry
                     [Examples.cluster_status_entry] (VStr "node/pve1") _ _) _);
      reflexivity.
  - eexists; reflexivity.
  - refine (proj2 (status_duplicate_skipped_before_kind_check
                     (mkAPI [DuplicateExample.pool_entry] [] Examples.version_answer)
                     [] DuplicateExample.pool_entry [] (VStr "node/pve1") _ _) _ _);
      try reflexivity.
    intros (t & Ht & Heq). injection Heq as <-. simpl in Ht; intuition discriminate.
Defined.

(** ** The value of an up/down sample *)

Module ValueFacts.
Import UpValue.
Import LabelingCollectorBase StatusCollector.

Lemma up_value_falsy entry :
  Py.truthy (up_value entry) = false -> up_value entry = VBool false.
Proof.
  unfold up_value, Py.or_.
  destruct (Py.truthy (Py.get entry "quorate")) eqn:Hq; [ rewrite Hq; congruence | ].
  destruct (Py.truthy (Py.get entry "online")) eqn:Ho; [ rewrite Ho; congruence | ].
  destruct (Py.contains _ _); simpl; congruence.
Qed.

Lemma flag_truthy v : flag v -> Py.truthy v = true -> Py.eqb v (VInt 1) = true.
Proof.
  intros [-> | [[b ->] | [-> | ->]]]; simpl; try discriminate; try reflexivity.
  intros ->; reflexivity.
Qed.

Lemma up_value_flags entry :
  flag (Py.get entry "quorate") -> flag (Py.get entry "online") ->
  Py.eqb (up_value entry) (VInt (if Py.truthy (up_value entry) then 1 else 0)) = true.
Proof.
  intros Hq Ho.
  destruct (Py.truthy (up_value entry)) eqn:Hup;
    [ | rewrite (up_value_falsy _ Hup); reflexivity ].
  revert Hup. unfold up_value, Py.or_.
  destruct (Py.truthy (Py.get entry "quorate")) eqn:Htq.
  - rewrite Htq; intros _; apply flag_truthy; assumption.
  - destruct (Py.truthy (Py.get entry "online")) eqn:Hto.
    + rewrite Hto; intros _; apply flag_truthy; assumption.
    + destruct (Py.contains _ _); simpl; [ reflexivity | discriminate ].
Qed.

Lemma sample_of_shape entry s :
  Dedup.sample_of entry = Ok s ->
  exists labels,
    get_known_labels entry None = Ok labels /\
    UpRule.supported_kind entry /\
    sample_labels s = map (fun key => downcast_label_value (Py.get labels key))
                          ["id"; "name"; "node"; "template"; "type"] /\
    sample_value s = up_value entry.
Proof.
  unfold Dedup.sample_of; intros H. bind_inv H. bind_inv H. injection H as <-.
  exists a; split; [ exact Ha | ].
  assert (Hk : UpRule.supported_kind entry).
  { apply StatusFacts.supported_kind_contains.
    unfold is_entry_up in Ha0.
    destruct (Py.contains _ (Py.get entry "type")); [ reflexivity | ].
    simpl in Ha0. destruct (Py.format_s _ _); discriminate. }
  split; [ exact Hk | ].
  rewrite (StatusFacts.is_entry_up_supported _ Hk) in Ha0; injection Ha0 as <-.
  split; reflexivity.
Qed.

End ValueFacts.

(** C7, as the code has it.  Every sample of a scrape that returns comes
    from a record of the input of a supported kind; its label values are
    those of id, name, node, template, type in this order; its value is the
    object [quorate or online or status in [...]], which is [False] when
    the record is not up and equals 1 (or 0) whenever quorate and online are
    each absent, [None], a boolean, 0 or 1. *)
Theorem status_sample_value (pve : ProxmoxAPI) (fams : list (GaugeMetricFamily string)) :
  StatusCollector.collect pve = Ok fams ->
  exists fam,
    fams = [fam] /\
    labelnames fam = ["id"; "name"; "node"; "template"; "type"] /\
    Forall (fun s =>
              exists entry labels,
                In entry (Dedup.chain pve) /\
                LabelingCollectorBase.get_known_labels entry None = Ok labels /\
                StatusCollector.is_entry_up entry = Ok (sample_value s) /\
                sample_labels s =
                  map (fun key => LabelingCollectorBase.downcast_label_value
                                    (Py.get labels key))
                      ["id"; "name"; "node"; "template"; "type"] /\
                sample_value s = UpValue.up_value entry /\
                (Py.truthy (sample_value s) = false -> sample_value s = VBool false) /\
                (UpValue.flag (Py.get entry "quorate") ->
                 UpValue.flag (Py.get entry "online") ->
                 Py.eqb (sample_value s)
                        (VInt (if Py.truthy (sample_value s) then 1 else 0)) = true))
           (samples fam).
Proof.
  intros H. destruct (status_collect_loop _ _ H) as (seen & new & _ & -> & _ & Hnew).
  eexists; split; [ reflexivity | split; [ reflexivity | ] ].
  simpl. apply map_each_Ok_inv in Hnew.
  assert (Hin : forall entry,
             In entry (Dedup.first_records [] (Dedup.chain pve)) ->
             In entry (Dedup.chain pve))
    by (intros entry; apply DedupFacts.first_records_incl).
  revert Hnew Hin.
  generalize (Dedup.first_records [] (Dedup.chain pve)) as sampled.
  intros sampled Hnew. clear H.
  induction Hnew as [| entry s sampled new Hs Hrest IH]; intros Hin; constructor.
  - destruct (ValueFacts.sample_of_shape _ _ Hs) as (labels & Hl & Hk & Hlv & Hv).
    exists entry, labels. rewrite Hv.
    split; [ apply Hin; left; reflexivity | ].
    split; [ exact Hl | ].
    split; [ apply StatusFacts.is_entry_up_supported; exact Hk | ].
    split; [ exact Hlv | ].
    split; [ reflexivity | ].
    split; [ apply ValueFacts.up_value_falsy | apply ValueFacts.up_value_flags ].
  - apply IH. intros e He; apply Hin; right; exact He.
Qed.

Lemma status_sample_value_witness :
  exists fam,
    [ mkFamily "pve_up" "Node/VM/CT-Status is online/running"
        ["id"; "name"; "node"; "template"; "type"]
        [ mkSample ["node/pve1"; "pve1"; "pve1"; ""; "node"] (VBool true);
          mkSample ["cluster/pvec"; "pvec"; ""; ""; "cluster"] (VInt 1) ] ] = [fam] /\
    labelnames fam = ["id"; "name"; "node"; "template"; "type"] /\
    Forall (fun s =>
              exists entry labels,
                In entry (Dedup.chain DuplicateExample.pve) /\
                LabelingCollectorBase.get_known_labels entry None = Ok labels /\
                StatusCollector.is_entry_up entry = Ok (sample_value s) /\
                sample_labels s =
                  map (fun key => LabelingCollectorBase.downcast_label_value
                                    (Py.get labels key))
                      ["id"; "name"; "node"; "template"; "type"] /\
                sample_value s = UpValue.up_value entry /\
                (Py.truthy (sample_value s) = false -> sample_value s = VBool false) /\
                (UpValue.flag (Py.get entry "quorate") ->
                 UpValue.flag (Py.get entry "online") ->
                 Py.eqb (sample_value s)
                        (VInt (if Py.truthy (sample_value s) then 1 else 0)) = true))
           (samples fam).
Proof.
  apply (status_sample_value DuplicateExample.pve). reflexivity.
Defined.

(** The value of a sample is not always 1 or 0: a quorate of 2 is passed
    on as it is. *)
Lemma status_sample_value_not_always_binary :
  StatusCollector.collect QuorateExample.pve =
  Ok [ mkFamily "pve_up" "Node/VM/CT-Status is online/running"
         ["id"; "name"; "node"; "template"; "type"]
         [ mkSample ["cluster/pvec"; "pvec"; ""; ""; "cluster"] (VInt 2) ] ] /\
  ~ (forall pve fams,
       StatusCollector.collect pve = Ok fams ->
       forall fam s, In fam fams -> In s (samples fam) ->
                     UpValue.one_or_zero (sample_value s)).
Proof.
  split; [ reflexivity | ].
  intros H.
  destruct (H QuorateExample.pve _ eq_refl _
              (mkSample ["cluster/pvec"; "pvec"; ""; ""; "cluster"] (VInt 2))
              (or_introl eq_refl) (or_introl eq_refl)) as [H1 | H0];
    discriminate.
Qed.

(** ** [VersionCollector.collect] *)

Module VersionFacts.
Import Whitelist.
Import VersionCollector PyFacts.

Lemma setitem_fresh (d : Py.dict) (k : string) (v : value) :
  ~ In k (Py.keys d) -> Py.setitem d k v = d ++ [(k, v)].
Proof.
  induction d as [| [k0 v0] d IH]; simpl; intros Hk; [ reflexivity | ].
  destruct (String.eqb_spec k0 k) as [-> | _]; [ tauto | ].
  rewrite IH by tauto; reflexivity.
Qed.

(** On a dict, a filtering comprehension keeps the chosen items in their
    order. *)
Section Comprehension.
Variable keep : string -> bool.

Lemma comprehension_from (items : list (string * value)) : forall acc,
  NoDup (Py.keys acc ++ Py.keys items) ->
  fold_left (fun acc item =>
               if keep (fst item) then Py.setitem acc (fst item) (snd item) else acc)
            items acc
  = acc ++ filter (fun item => keep (fst item)) items.
Proof.
  induction items as [| [k v] items IH]; intros acc Hnd; cbn [fold_left filter fst snd].
  - rewrite app_nil_r; reflexivity.
  - unfold Py.keys in Hnd; simpl in Hnd.
    pose proof (NoDup_remove_1 _ _ _ Hnd) as Hrest.
    pose proof (NoDup_remove_2 _ _ _ Hnd) as Hfresh.
    destruct (keep k).
    + rewrite setitem_fresh by (intros Hin; apply Hfresh, in_or_app; left; exact Hin).
      rewrite IH.
      * rewrite <- app_assoc; reflexivity.
      * unfold Py.keys; rewrite map_app, <- app_assoc; simpl. exact Hnd.
    + apply IH. exact Hrest.
Qed.
End Comprehension.

Lemma whitelisted_filter (d : Py.dict) :
  Py.dict_wf d -> whitelisted d = filter allowed d.
Proof.
  intros Hwf. unfold whitelisted.
  rewrite (comprehension_from (fun k => existsb (String.eqb k) LABEL_WHITELIST));
    auto.
Qed.

End VersionFacts.

(** C8.  On a version record the collector keeps the fields whose name is
    release, repoid or version.  When some field is kept it returns one
    family whose label names are the kept names and whose only sample has
    the kept values and the value 1; when none is kept it raises. *)
Theorem version_collect (pve : ProxmoxAPI) :
  Py.dict_wf (version pve) ->
  let kept := filter Whitelist.allowed (version pve) in
  (forall k v, In (k, v) kept <->
               In (k, v) (version pve) /\ In k ["release"; "repoid"; "version"]) /\
  (kept <> [] ->
   VersionCollector.collect pve =
   Ok [ mkFamily "pve_version_info" "Proxmox VE version info" (Py.keys kept)
          [ mkSample (Py.values kept) (VInt 1) ] ]) /\
  (kept = [] ->
   VersionCollector.collect pve =
   Raise (ValueError "not enough values to unpack (expected 2, got 0)")).
Proof.
  intros Hwf kept.
  assert (Hcollect : VersionCollector.collect pve =
                     (unzipped <- VersionCollector.unzip_items kept ;;
                      Ok [add_metric (new_family "pve_version_info"
                                        "Proxmox VE version info" (fst unzipped))
                                     (snd unzipped) (VInt 1)])).
  { unfold VersionCollector.collect. rewrite (VersionFacts.whitelisted_filter _ Hwf).
    fold kept. destruct (VersionCollector.unzip_items kept) as [[ks vs] | e]; reflexivity. }
  split; [ | split ].
  - intros k v. unfold kept. rewrite filter_In. unfold Whitelist.allowed; simpl fst.
    rewrite LabelFacts.existsb_eqb_In. reflexivity.
  - intros Hne. rewrite Hcollect. destruct kept; [ congruence | reflexivity ].
  - intros ->. exact Hcollect.
Qed.

Lemma version_collect_witness :
  let kept := filter Whitelist.allowed Examples.version_answer in
  (forall k v, In (k, v) kept <->
               In (k, v) Examples.version_answer /\
               In k ["release"; "repoid"; "version"]) /\
  (kept <> [] ->
   VersionCollector.collect Examples.pve =
   Ok [ mkFamily "pve_version_info" "Proxmox VE version info" (Py.keys kept)
          [ mkSample (Py.values kept) (VInt 1) ] ]) /\
  (kept = [] ->
   VersionCollector.collect Examples.pve =
   Raise (ValueError "not enough values to unpack (expected 2, got 0)")).
Proof.
  apply (version_collect Examples.pve).
  unfold Py.dict_wf; simpl.
  repeat (constructor; [ simpl; intuition discriminate | ]); constructor.
Defined.

(** ** The loop of [ClusterResourcesCollector.collect] *)

Module ResourcesFacts.
Import Routing.
Import LabelingCollectorBase ClusterResourcesCollector PyFacts.

Lemma find_update (key key' : string) f (fs : families) :
  find_family key (update_family key' f fs) =
  if (key' =? key)%string then option_map f (find_family key fs)
  else find_family key fs.
Proof.
  induction fs as [| [k fam] fs IH]; simpl.
  - destruct (key' =? key)%string; reflexivity.
  - destruct (String.eqb_spec k key') as [-> | Hne]; simpl.
    + destruct (String.eqb_spec key' key); reflexivity.
    + rewrite IH. destruct (String.eqb_spec k key) as [-> | Hne'].
      * destruct (String.eqb_spec key' key); [ congruence | reflexivity ].
      * reflexivity.
Qed.

Lemma find_family_In (key : string) (fs : families) fam :
  find_family key fs = Some fam -> In fam (map snd fs).
Proof.
  induction fs as [| [k f] fs IH]; simpl; [ discriminate | ].
  destruct (k =? key)%string; [ intros [= ->]; auto | auto ].
Qed.

Lemma names_update (key : string) f (fs : families) :
  (forall fam, name (f fam) = name fam) ->
  names (update_family key f fs) = names fs.
Proof.
  intros Hf; induction fs as [| [k fam] fs IH]; simpl; [ reflexivity | ].
  destruct (k =? key)%string; simpl; [ rewrite Hf | rewrite IH ]; reflexivity.
Qed.

Lemma route_items_find label_values (key : string) (resource : Py.dict) :
  forall metrics,
    find_family key (route_items label_values resource metrics) =
    option_map (fun fam => extend fam (routed label_values key resource))
               (find_family key metrics).
Proof.
  unfold route_items, routed.
  induction resource as [| [k v] resource IH]; intros metrics;
    cbn [fold_left filter map fst snd].
  - destruct (find_family key metrics); simpl; [ rewrite extend_nil | ]; reflexivity.
  - rewrite IH.
    assert (Hstep :
              find_family key
                (match find_family k metrics with
                 | Some _ => update_family k (fun fam => add_metric fam label_values v)
                                           metrics
                 | None => metrics
                 end) =
              if (k =? key)%string
              then option_map (fun fam => add_metric fam label_values v)
                              (find_family key metrics)
              else find_family key metrics).
    { destruct (find_family k metrics) eqn:Hk.
      - apply find_update.
      - destruct (String.eqb_spec k key) as [-> | _]; [ rewrite Hk | ]; reflexivity. }
    rewrite Hstep.
    destruct (k =? key)%string; [ | reflexivity ].
    destruct (find_family key metrics); simpl; [ | reflexivity ].
    rewrite add_metric_extend, extend_extend; reflexivity.
Qed.

Lemma names_route_items label_values (resource : Py.dict) : forall metrics,
  names (route_items label_values resource metrics) = names metrics.
Proof.
  unfold route_items.
  induction resource as [| [k v] resource IH]; intros metrics; cbn [fold_left fst snd].
  - reflexivity.
  - rewrite IH. destruct (find_family k metrics); [ | reflexivity ].
    apply names_update; reflexivity.
Qed.

Lemma filter_key_absent (key : string) (d : Py.dict) :
  ~ In key (Py.keys d) -> filter (fun item => (fst item =? key)%string) d = [].
Proof.
  induction d as [| [k v] d IH]; simpl; intros H; [ reflexivity | ].
  destruct (String.eqb_spec k key) as [-> | _]; [ tauto | apply IH; tauto ].
Qed.

(** In a dict a key has at most one item, the one [lookup] finds. *)
Lemma filter_key_lookup (key : string) (d : Py.dict) :
  Py.dict_wf d ->
  filter (fun item => (fst item =? key)%string) d =
  match Py.lookup d key with
  | Some v => [(key, v)]
  | None => []
  end.
Proof.
  unfold Py.dict_wf.
  induction d as [| [k v] d IH]; simpl; intros Hwf; [ reflexivity | ].
  inversion Hwf as [| ? ? Hfresh Hrest]; subst.
  destruct (String.eqb_spec k key) as [-> | _].
  - rewrite filter_key_absent by exact Hfresh; reflexivity.
  - apply IH; exact Hrest.
Qed.

Lemma routed_contribution label_values (key : string) (resource : Py.dict) :
  Py.dict_wf resource -> label_values_of resource = Ok label_values ->
  routed label_values key resource = contribution key resource.
Proof.
  intros Hwf Hlv. unfold routed, contribution.
  rewrite (filter_key_lookup _ _ Hwf), Hlv.
  destruct (Py.lookup resource key); reflexivity.
Qed.

Lemma names_route_info label_values restype info_metrics :
  names (route_info label_values restype info_metrics) = names info_metrics.
Proof.
  unfold route_info. destruct restype as [| b | z | t]; try reflexivity.
  destruct (lookup_info t info_lookup); [ | reflexivity ].
  apply names_update; reflexivity.
Qed.

Lemma collect_resource_inv metrics info_metrics resource state :
  collect_resource (metrics, info_metrics) resource = Ok state ->
  exists label_values info_metrics',
    label_values_of resource = Ok label_values /\
    state = (route_items label_values resource metrics, info_metrics') /\
    names info_metrics' = names info_metrics.
Proof.
  unfold collect_resource, label_values_of; intros H.
  destruct (get_known_labels resource None) as [labels | e]; cbn [bind] in *;
    [ | discriminate ].
  injection H as <-.
  eexists; eexists; split; [ reflexivity | split; [ reflexivity | ] ].
  apply names_route_info.
Qed.

(** The loop: every record has label values, each family of the routing
    table grows by the contributions of the records in their order, and
    no family changes its name. *)
Lemma loop_routes resources : forall metrics info_metrics metrics' info_metrics',
  Forall Py.dict_wf resources ->
  for_each collect_resource resources (metrics, info_metrics)
  = Ok (metrics', info_metrics') ->
  Forall (fun resource => exists lv, label_values_of resource = Ok lv) resources /\
  names metrics' = names metrics /\
  names info_metrics' = names info_metrics /\
  forall key,
    find_family key metrics' =
    option_map (fun fam => extend fam (flat_map (contribution key) resources))
               (find_family key metrics).
Proof.
  induction resources as [| resource rest IH];
    intros metrics info_metrics metrics' info_metrics' Hwf H; cbn [for_each] in H.
  - injection H as <- <-. repeat split; [ constructor | ].
    intros key; destruct (find_family key metrics); simpl;
      [ rewrite extend_nil | ]; reflexivity.
  - inversion Hwf as [| ? ? Hwf1 Hwfrest]; subst.
    bind_inv H.
    destruct (collect_resource_inv _ _ _ _ Ha) as (lv & ims & Hlv & -> & Hims).
    destruct (IH _ _ _ _ Hwfrest H) as (Hall & Hn & Hin & Hfind).
    split; [ constructor; eauto | ].
    split; [ rewrite Hn; apply names_route_items | ].
    split; [ congruence | ].
    intros key. rewrite Hfind, route_items_find.
    rewrite (routed_contribution _ _ _ Hwf1 Hlv).
    destruct (find_family key metrics); simpl; [ | reflexivity ].
    rewrite extend_extend; reflexivity.
Qed.

Lemma resources_loop_returns resources : forall state,
  Forall (fun resource => exists lv, label_values_of resource = Ok lv) resources ->
  exists final, for_each collect_resource resources state = Ok final.
Proof.
  induction resources as [| resource rest IH]; intros [metrics info_metrics] Hall;
    cbn [for_each].
  - eauto.
  - inversion Hall as [| ? ? [lv Hlv] Hrest]; subst.
    unfold label_values_of in Hlv. bind_inv Hlv.
    unfold collect_resource at 1; rewrite Ha; cbn [bind].
    apply IH; exact Hrest.
Qed.

End ResourcesFacts.

(** ** [ClusterResourcesCollector.collect] *)


(** C5.  On a scrape of the resources that returns, the family of each
    routed field (maxdisk, disk, maxmem, mem, netout, netin, diskwrite,
    diskread, cpu, maxcpu, uptime) is among the families returned, under
    its own name, and its samples are, record after record, one sample
    with the record's label values and the field's value where the record
    has the field and none where it has not. *)
Theorem resources_sparse_routing (pve : ProxmoxAPI)
  (fams : list (GaugeMetricFamily string)) :
  Forall Py.dict_wf (cluster_resources pve) ->
  ClusterResourcesCollector.collect pve = Ok fams ->
  map fst (ClusterResourcesCollector.metrics_table
             LabelingCollectorBase.KNOWN_LABEL_KEYS)
  = ["maxdisk"; "disk"; "maxmem"; "mem"; "netout"; "netin"; "diskwrite"; "diskread";
     "cpu"; "maxcpu"; "uptime"] /\
  Forall (fun resource => exists lv, Routing.label_values_of resource = Ok lv)
         (cluster_resources pve) /\
  NoDup (map name fams) /\
  forall field fam0,
    In (field, fam0) (ClusterResourcesCollector.metrics_table
                        LabelingCollectorBase.KNOWN_LABEL_KEYS) ->
    exists fam,
      In fam fams /\ name fam = name fam0 /\
      samples fam = flat_map (Routing.contribution field) (cluster_resources pve).
Proof.
  intros Hwf H. unfold ClusterResourcesCollector.collect in H.
  bind_inv H. destruct a as [ms ims]. injection H as <-.
  destruct (ResourcesFacts.loop_routes _ _ _ _ _ Hwf Ha) as (Hall & Hms & Hims & Hfind).
  split; [ reflexivity | split; [ exact Hall | split ] ].
  - rewrite map_app.
    replace (map name (map snd ms)) with (map snd (Routing.names ms))
      by (unfold Routing.names; rewrite !map_map; reflexivity).
    replace (map name (map snd ims)) with (map snd (Routing.names ims))
      by (unfold Routing.names; rewrite !map_map; reflexivity).
    rewrite Hms, Hims. simpl.
    repeat (constructor; [ simpl; intuition discriminate | ]); constructor.
  - intros field fam0 Hin.
    exists (extend fam0 (flat_map (Routing.contribution field)
                                  (cluster_resources pve))).
    assert (Hfam0 : ClusterResourcesCollector.find_family field
                      (ClusterResourcesCollector.metrics_table
                         LabelingCollectorBase.KNOWN_LABEL_KEYS) = Some fam0
                    /\ samples fam0 = []).
    { simpl in Hin.
      repeat (destruct Hin as [Hin | Hin];
              [ injection Hin as <- <-; split; reflexivity | ]).
      contradiction. }
    destruct Hfam0 as [Hfam0 Hempty].
    split; [ | split; [ reflexivity | simpl; rewrite Hempty; reflexivity ] ].
    apply in_or_app; left.
    apply ResourcesFacts.find_family_In with field.
    rewrite Hfind, Hfam0; reflexivity.
Qed.

Lemma resources_sparse_routing_witness :
  (exists fam : GaugeMetricFamily string,
      name fam = "pve_network_receive_bytes" /\ samples fam = []) /\
  (exists fam : GaugeMetricFamily string,
      name fam = "pve_memory_size_bytes" /\
      samples fam =
      [ mkSample ["qemu/100"; ""; "pve1"; ""; "qemu"] (VInt 1073741824);
        mkSample ["lxc/101"; "ct"; "pve1"; ""; "lxc"] (VInt 2048) ]).
Proof.
  assert (Hwf : Forall Py.dict_wf (cluster_resources SparseExample.pve)).
  { repeat (constructor;
            [ unfold Py.dict_wf; simpl;
              repeat (constructor; [ simpl; intuition discriminate | ]); constructor | ]).
    constructor. }
  destruct (resources_sparse_routing SparseExample.pve _ Hwf eq_refl)
    as (_ & _ & _ & Hroute).
  split.
  - destruct (Hroute "netin" _ (or_intror (or_intror (or_intror (or_intror
                (or_intror (or_introl eq_refl))))))) as (fam & _ & Hn & Hs).
    exists fam; split; [ exact Hn | exact Hs ].
  - destruct (Hroute "maxmem" _ (or_intror (or_intror (or_introl eq_refl))))
      as (fam & _ & Hn & Hs).
    exists fam; split; [ exact Hn | exact Hs ].
Defined.

(** ** The info collectors *)

Module InfoFacts.
Import PyFacts SchemaSpec.

Lemma getitem_Ok (d : Py.dict) (k : string) (v : value) :
  Py.getitem d k = Ok v -> Py.get d k = v /\ Py.has_key d k = true.
Proof.
  unfold Py.getitem, Py.get, Py.has_key.
  destruct (Py.lookup d k); [ intros [= ->]; auto | discriminate ].
Qed.

Lemma getitem_has_key (d : Py.dict) (k : string) :
  Py.has_key d k = true -> Py.getitem d k = Ok (Py.get d k).
Proof.
  unfold Py.getitem, Py.get, Py.has_key.
  destruct (Py.lookup d k); [ reflexivity | discriminate ].
Qed.

Lemma delitem_Ok (d d' : Py.dict) (k : string) :
  Py.delitem d k = Ok d' -> d' = Py.remove d k /\ Py.has_key d k = true.
Proof.
  unfold Py.delitem. destruct (Py.has_key d k); [ intros [= <-]; auto | discriminate ].
Qed.

Lemma lookup_remove_other (d : Py.dict) (k k' : string) :
  k <> k' -> Py.lookup (Py.remove d k) k' = Py.lookup d k'.
Proof.
  intros Hne. induction d as [| [k0 v0] d IH]; simpl; [ reflexivity | ].
  destruct (String.eqb_spec k0 k) as [-> | Hk0].
  - destruct (String.eqb_spec k k'); [ congruence | reflexivity ].
  - simpl. rewrite IH; reflexivity.
Qed.

Lemma get_remove_other (d : Py.dict) (k k' : string) :
  k <> k' -> Py.get (Py.remove d k) k' = Py.get d k'.
Proof. intros Hne; unfold Py.get; rewrite lookup_remove_other; auto. Qed.

Lemma has_key_remove_other (d : Py.dict) (k k' : string) :
  k <> k' -> Py.has_key (Py.remove d k) k' = Py.has_key d k'.
Proof. intros Hne; unfold Py.has_key; rewrite lookup_remove_other; auto. Qed.

Lemma map_each_Ok_fun {A B : Type} (f : A -> result B) (g : A -> B) (P : A -> Prop)
  (xs : list A) (ys : list B) :
  (forall x y, f x = Ok y -> y = g x /\ P x) ->
  map_each f xs = Ok ys -> ys = map g xs /\ Forall P xs.
Proof.
  intros Hf; revert ys; induction xs as [| x xs IH]; intros ys H; simpl in H.
  - injection H as <-; auto.
  - bind_inv H. bind_inv H. injection H as <-.
    destruct (Hf _ _ Ha) as [-> Hx]. destruct (IH _ Ha0) as [-> Hxs]. auto.
Qed.

(** The comprehension that selects the records of a kind. *)
Lemma filter_each_type (kind : string) (status nodes : list Py.dict) :
  filter_each (type_is kind) status = Ok nodes ->
  nodes = matching kind status /\
  Forall (fun entry => Py.has_key entry "type" = true) status.
Proof.
  revert nodes; induction status as [| entry rest IH]; intros nodes H; simpl in H.
  - injection H as <-; auto.
  - bind_inv H. bind_inv H. injection H as <-.
    unfold type_is in Ha. bind_inv Ha. injection Ha as <-.
    destruct (getitem_Ok _ _ _ Ha1) as [<- Hkey].
    destruct (IH _ Ha0) as [-> Hrest].
    split; [ reflexivity | constructor; assumption ].
Qed.

Lemma filter_each_type_returns (kind : string) (status : list Py.dict) :
  Forall (fun entry => Py.has_key entry "type" = true) status ->
  filter_each (type_is kind) status = Ok (matching kind status).
Proof.
  induction 1 as [| entry rest Hkey _ IH]; [ reflexivity | ].
  cbn [filter_each]. unfold type_is at 1.
  rewrite (getitem_has_key _ _ Hkey); cbn [bind].
  rewrite IH; reflexivity.
Qed.

(** The closing loop. *)
Lemma add_info_samples_Ok (labels : list string) (records : list Py.dict) :
  forall fam fam',
    add_info_samples labels records fam = Ok fam' ->
    fam' = extend fam (map (info_sample labels) records) /\
    Forall (fun record => Forall (fun key => Py.has_key record key = true) labels)
           records.
Proof.
  unfold add_info_samples.
  induction records as [| record rest IH]; intros fam fam' H; cbn [for_each] in H.
  - injection H as <-. split; [ symmetry; apply extend_nil | constructor ].
  - bind_inv H. bind_inv Ha. injection Ha as <-.
    assert (Hkey : forall key y,
               (v <- Py.getitem record key ;; Ok (Py.str v)) = Ok y ->
               y = Py.str (Py.get record key) /\ Py.has_key record key = true).
    { intros key y Hy. bind_inv Hy. injection Hy as <-.
      destruct (getitem_Ok _ _ _ Ha) as [<- Hk]; auto. }
    destruct (map_each_Ok_fun _ _ _ _ _ Hkey Ha0) as [-> Hkeys].
    destruct (IH _ _ H) as [-> Hrest].
    split; [ | constructor; assumption ].
    rewrite add_metric_extend, extend_extend; reflexivity.
Qed.

Lemma add_info_samples_returns (labels : list string) (records : list Py.dict) :
  Forall (fun record => Forall (fun key => Py.has_key record key = true) labels)
         records ->
  forall fam, exists fam', add_info_samples labels records fam = Ok fam'.
Proof.
  unfold add_info_samples.
  induction 1 as [| record rest Hkeys _ IH]; intros fam; cbn [for_each]; [ eauto | ].
  rewrite (map_each_Ok_map _ (fun key => Py.str (Py.get record key))).
  - cbn [bind]. apply IH.
  - intros key Hkey. rewrite Forall_forall in Hkeys.
    rewrite (getitem_has_key _ _ (Hkeys _ Hkey)); reflexivity.
Qed.

(** The two removals of the node collector, on one record. *)
Lemma strip_node_Ok (node node' : Py.dict) :
  (node1 <- Py.delitem node "type" ;; Py.delitem node1 "online") = Ok node' ->
  node' = strip_node node /\ Py.has_key node "online" = true.
Proof.
  intros H. bind_inv H.
  destruct (delitem_Ok _ _ _ Ha) as [-> _].
  destruct (delitem_Ok _ _ _ H) as [-> Hon].
  rewrite has_key_remove_other in Hon by discriminate. auto.
Qed.

(** The removal of the type of a cluster record. *)
Lemma strip_type_Ok (cluster cluster' : Py.dict) :
  Py.delitem cluster "type" = Ok cluster' ->
  cluster' = Py.remove cluster "type" /\ True.
Proof. intros H; destruct (delitem_Ok _ _ _ H); auto. Qed.

(** The rewriting of the name of a cluster record into its identity. *)
Lemma rename_cluster_Ok (cluster cluster' : Py.dict) :
  (name <- Py.getitem (Py.remove cluster "type") "name" ;;
   cluster_id <- Py.format_s "cluster/" name ;;
   Py.delitem (Py.setitem (Py.remove cluster "type") "id" (VStr cluster_id)) "name")
  = Ok cluster' ->
  cluster' = strip_cluster cluster /\
  exists s, Py.lookup cluster "name" = Some (VStr s).
Proof.
  intros H. bind_inv H. bind_inv H.
  destruct (delitem_Ok _ _ _ H) as [-> _].
  unfold Py.getitem in Ha. rewrite lookup_remove_other in Ha by discriminate.
  unfold strip_cluster, Py.get.
  destruct (Py.lookup cluster "name") as [v |]; [ | discriminate ].
  injection Ha as <-.
  destruct v as [| b | z | s]; try discriminate.
  injection Ha0 as <-. eauto.
Qed.

End InfoFacts.

Module CollectFacts.
Import Ready.
Import PyFacts SchemaSpec InfoFacts.

Lemma map_each_map {A B C : Type} (f : B -> result C) (h : A -> B) (xs : list A) :
  map_each f (map h xs) = map_each (fun x => f (h x)) xs.
Proof.
  induction xs as [| x xs IH]; simpl; [ reflexivity | rewrite IH; reflexivity ].
Qed.

Lemma matching_has_type (kind : string) (status : list Py.dict) :
  Forall has_type (matching kind status).
Proof.
  apply Forall_forall; intros entry Hin.
  apply filter_In in Hin; destruct Hin as [_ Heq].
  apply eqb_str in Heq. unfold has_type, Py.has_key.
  unfold Py.get in Heq. destruct (Py.lookup entry "type"); [ reflexivity | discriminate ].
Qed.

Lemma node_collect_Ok (pve : ProxmoxAPI) fams :
  ClusterNodeCollector.collect pve = Ok fams ->
  node_ready (cluster_status pve) /\ fams = node_info (cluster_status pve).
Proof.
  unfold ClusterNodeCollector.collect, node_ready, node_info; intros H.
  bind_inv H. destruct (filter_each_type _ _ _ Ha) as [-> Htype].
  destruct (matching "node" (cluster_status pve)) as [| node rest] eqn:Hm.
  - injection H as <-. repeat split; auto; constructor.
  - bind_inv H.
    destruct (map_each_Ok_fun _ strip_node has_online _ _ strip_node_Ok Ha0)
      as [-> Honline].
    cbn [map first bind] in H. bind_inv H. injection H as <-.
    destruct (add_info_samples_Ok _ _ _ _ Ha1) as [-> Hkeys].
    repeat split; auto.
Qed.

Lemma node_collect_returns (pve : ProxmoxAPI) :
  node_ready (cluster_status pve) ->
  ClusterNodeCollector.collect pve = Ok (node_info (cluster_status pve)).
Proof.
  unfold ClusterNodeCollector.collect, node_ready, node_info.
  intros (Htype & Honline & Huniform).
  rewrite (filter_each_type_returns _ _ Htype); cbn [bind].
  destruct (matching "node" (cluster_status pve)) as [| node rest] eqn:Hm;
    [ reflexivity | ].
  rewrite (map_each_Ok_map _ strip_node).
  - cbn [bind map first].
    destruct (add_info_samples_returns _ _ Huniform
                (new_family "pve_node_info" "Node info" (Py.keys (strip_node node))))
      as [fam Hfam].
    cbn [map] in Hfam. rewrite Hfam; cbn [bind].
    destruct (add_info_samples_Ok _ _ _ _ Hfam) as [-> _]. reflexivity.
  - intros entry Hin. rewrite Forall_forall in Honline.
    pose proof (matching_has_type "node" (cluster_status pve)) as Hty.
    rewrite Hm, Forall_forall in Hty.
    unfold Py.delitem. rewrite (Hty _ Hin); cbn [bind].
    rewrite has_key_remove_other by discriminate.
    rewrite (Honline _ Hin); reflexivity.
Qed.

Lemma cluster_collect_Ok (pve : ProxmoxAPI) fams :
  ClusterInfoCollector.collect pve = Ok fams ->
  cluster_ready (cluster_status pve) /\ fams = cluster_info (cluster_status pve).
Proof.
  unfold ClusterInfoCollector.collect, cluster_ready, cluster_info; intros H.
  bind_inv H. destruct (filter_each_type _ _ _ Ha) as [-> Htype].
  destruct (matching "cluster" (cluster_status pve)) as [| cluster rest] eqn:Hm.
  - injection H as <-. repeat split; auto; constructor.
  - bind_inv H.
    destruct (map_each_Ok_fun _ (fun c => Py.remove c "type") (fun _ => True) _ _
                              strip_type_Ok Ha0) as [-> _].
    bind_inv H. rewrite map_each_map in Ha1.
    destruct (map_each_Ok_fun _ strip_cluster has_name _ _ rename_cluster_Ok Ha1)
      as [-> Hname].
    cbn [map first bind] in H. bind_inv H. injection H as <-.
    destruct (add_info_samples_Ok _ _ _ _ Ha2) as [-> Hkeys].
    repeat split; auto.
Qed.

Lemma cluster_collect_returns (pve : ProxmoxAPI) :
  cluster_ready (cluster_status pve) ->
  ClusterInfoCollector.collect pve = Ok (cluster_info (cluster_status pve)).
Proof.
  unfold ClusterInfoCollector.collect, cluster_ready, cluster_info.
  intros (Htype & Hname & Huniform).
  rewrite (filter_each_type_returns _ _ Htype); cbn [bind].
  destruct (matching "cluster" (cluster_status pve)) as [| cluster rest] eqn:Hm;
    [ reflexivity | ].
  pose proof (matching_has_type "cluster" (cluster_status pve)) as Hty.
  rewrite Hm in Hty. rewrite Forall_forall in Hty, Hname.
  rewrite (map_each_Ok_map _ (fun c => Py.remove c "type")).
  - cbn [bind]. rewrite map_each_map.
    rewrite (map_each_Ok_map _ strip_cluster).
    + cbn [bind map first].
      destruct (add_info_samples_returns _ _ Huniform
                  (new_family "pve_cluster_info" "Cluster info"
                              (Py.keys (strip_cluster cluster))))
        as [fam Hfam].
      cbn [map] in Hfam. rewrite Hfam; cbn [bind].
      destruct (add_info_samples_Ok _ _ _ _ Hfam) as [-> _]. reflexivity.
    + intros entry Hin. destruct (Hname _ Hin) as [s Hs].
      unfold Py.getitem. rewrite lookup_remove_other by discriminate.
      rewrite Hs; cbn [bind Py.format_s].
      unfold Py.delitem. rewrite has_key_setitem, has_key_remove_other by discriminate.
      unfold Py.has_key at 1; rewrite Hs. cbn [orb String.eqb].
      unfold strip_cluster, Py.get; rewrite Hs; reflexivity.
  - intros entry Hin. unfold Py.delitem. rewrite (Hty _ Hin); reflexivity.
Qed.

End CollectFacts.

(** C6.  The node info collector and the cluster info collector return
    exactly on the batches whose records have the fields they read, and
    what they return is what the specification describes: no family when
    no record of the kind is there, and otherwise one family whose label
    names are the fields of the first matching record once the bookkeeping
    fields are gone (type, and online for a node; for a cluster the name,
    rewritten into the identity "cluster/" + name), with one sample valued
    1 per matching record under these label names. *)
Theorem info_collectors_schema (pve : ProxmoxAPI) (fams : list (GaugeMetricFamily string)) :
  (ClusterNodeCollector.collect pve = Ok fams <->
   Ready.node_ready (cluster_status pve) /\
   fams = SchemaSpec.node_info (cluster_status pve)) /\
  (ClusterInfoCollector.collect pve = Ok fams <->
   Ready.cluster_ready (cluster_status pve) /\
   fams = SchemaSpec.cluster_info (cluster_status pve)).
Proof.
  split; split.
  - apply CollectFacts.node_collect_Ok.
  - intros [Hready ->]. apply CollectFacts.node_collect_returns; exact Hready.
  - apply CollectFacts.cluster_collect_Ok.
  - intros [Hready ->]. apply CollectFacts.cluster_collect_returns; exact Hready.
Qed.

Lemma info_collectors_schema_witness :
  ClusterNodeCollector.collect Examples.pve =
  Ok [ mkFamily "pve_node_info" "Node info" ["id"; "name"; "ip"; "local"]
         [ mkSample ["node/pve1"; "pve1"; "10.20.30.40"; "1"] (VInt 1) ] ] /\
  ClusterInfoCollector.collect Examples.pve =
  Ok [ mkFamily "pve_cluster_info" "Cluster info" ["quorate"; "nodes"; "id"]
         [ mkSample ["1"; "2"; "cluster/pvec"] (VInt 1) ] ] /\
  ClusterNodeCollector.collect (mkAPI [] [Examples.cluster_status_entry] []) = Ok [].
Proof.
  split; [ | split ].
  - apply (proj1 (info_collectors_schema Examples.pve _)).
    split; [ | reflexivity ].
    split; [ repeat constructor | split; [ repeat constructor | ] ].
    simpl. repeat constructor.
  - apply (proj2 (info_collectors_schema Examples.pve _)).
    split; [ | reflexivity ].
    split; [ repeat constructor | split ].
    + constructor; [ exists "pvec"; reflexivity | constructor ].
    + simpl. repeat constructor.
  - apply (proj1 (info_collectors_schema (mkAPI [] [Examples.cluster_status_entry] []) _)).
    split; [ | reflexivity ].
    split; [ repeat constructor | split; [ constructor | exact I ] ].
Defined.

(** ** Absent fields *)




(** The identity of a cluster record is made by formatting its name: a
    cluster record without a name has no labels. *)
Example get_known_labels_cluster_without_name :
  LabelingCollectorBase.get_known_labels [("type", VStr "cluster")] None
  = Raise (TypeError "unsupported format string passed to NoneType.__format__").
Proof. reflexivity. Qed.

(** ** What [is_entry_up] returns *)

(** C2, as the code has it.  For a record whose type is one of qemu, lxc,
    node, storage, vm, cluster, [is_entry_up] returns the object
    [quorate or online or status in [...]]: it is truthy exactly when
    quorate is truthy, or online is truthy, or status is one of
    "available", "online", "running"; it is [False] when none of these
    holds, and equals [True] when one holds and quorate and online are each
    absent, [None], a boolean, 0 or 1.  For a record whose type is a string
    outside that set, it raises the [ValueError] that names the type
    instead of returning. *)
Theorem is_entry_up_object (entry : Py.dict) :
  (UpRule.supported_kind entry ->
   StatusCollector.is_entry_up entry = Ok (UpValue.up_value entry) /\
   (Py.truthy (UpValue.up_value entry) = true <-> UpRule.reported_up entry) /\
   (~ UpRule.reported_up entry -> UpValue.up_value entry = VBool false) /\
   (UpRule.reported_up entry ->
    UpValue.flag (Py.get entry "quorate") -> UpValue.flag (Py.get entry "online") ->
    Py.eqb (UpValue.up_value entry) (VBool true) = true)) /\
  (forall t, Py.get entry "type" = VStr t ->
             ~ In t StatusCollector.SUPPORTED_UP_RES_TYPES ->
             StatusCollector.is_entry_up entry =
             Raise (ValueError ("Got unexpected status entry type " ++ t)%string)).
Proof.
  assert (Hiff : Py.truthy (UpValue.up_value entry) = true <-> UpRule.reported_up entry).
  { unfold UpValue.up_value. rewrite !StatusFacts.truthy_or.
    unfold UpRule.reported_up, Py.truthy at 1.
    rewrite <- PyFacts.contains_strs, !orb_true_iff. tauto. }
  split.
  - intros Hkind.
    split; [ exact (StatusFacts.is_entry_up_supported _ Hkind) | ].
    split; [ exact Hiff | split ].
    + intros Hdown. apply ValueFacts.up_value_falsy.
      destruct (Py.truthy (UpValue.up_value entry)); [ | reflexivity ].
      exfalso; apply Hdown, Hiff; reflexivity.
    + intros Hup Hq Ho. apply Hiff in Hup.
      pose proof (ValueFacts.up_value_flags _ Hq Ho) as Hone. rewrite Hup in Hone.
      apply PyFacts.eqb_trans with (VInt 1); [ exact Hone | reflexivity ].
  - intros t Hty Hout.
    destruct (StatusFacts.is_entry_up_unsupported entry) as (e & He & Hmsg).
    + intros (t' & Hin & Ht'). rewrite Hty in Ht'. injection Ht' as <-. tauto.
    + rewrite He, (Hmsg _ Hty). reflexivity.
Qed.

Lemma is_entry_up_object_witness :
  StatusCollector.is_entry_up Examples.qemu_resource = Ok (VBool true) /\
  StatusCollector.is_entry_up [("type", VStr "pool")] =
  Raise (ValueError "Got unexpected status entry type pool").
Proof.
  split.
  - refine (proj1 (proj1 (is_entry_up_object Examples.qemu_resource) _)).
    exists "qemu"; split; [ simpl; auto | reflexivity ].
  - refine (proj2 (is_entry_up_object [("type", VStr "pool")]) "pool" eq_refl _).
    simpl; intuition discriminate.
Defined.

(** What [is_entry_up] returns is not always a boolean, nor always equal
    to one: a quorate of 2 comes back as it is.  And the exception for a
    record without a type is not the [ValueError] of the unsupported kind:
    the message cannot be formatted. *)
Lemma is_entry_up_returns_raw_object :
  StatusCollector.is_entry_up QuorateExample.cluster_entry = Ok (VInt 2) /\
  Py.eqb (VInt 2) (VBool true) = false /\
  StatusCollector.is_entry_up [("id", VStr "node/pve1")] =
  Raise (TypeError "unsupported format string passed to NoneType.__format__") /\
  ~ (forall entry,
       UpRule.supported_kind entry ->
       exists b, StatusCollector.is_entry_up entry = Ok (VBool b) /\
                 (b = true <-> UpRule.reported_up entry)) /\
  ~ (forall entry,
       UpRule.supported_kind entry ->
       exists up, StatusCollector.is_entry_up entry = Ok up /\
                  (Py.eqb up (VBool true) = true <-> UpRule.reported_up entry)).
Proof.
  assert (Hkind : UpRule.supported_kind QuorateExample.cluster_entry)
    by (exists "cluster"; split; [ simpl; auto 7 | reflexivity ]).
  assert (Hup : UpRule.reported_up QuorateExample.cluster_entry)
    by (left; reflexivity).
  split; [ reflexivity | split; [ reflexivity | split; [ reflexivity | split ] ] ].
  - intros H. destruct (H _ Hkind) as (b & Hb & _). discriminate.
  - intros H. destruct (H _ Hkind) as (up & Hval & Hiff).
    injection Hval as <-. apply Hiff in Hup. discriminate.
Qed.

(** * Further properties of the collectors *)

(** ** The keys of the labels *)

Module KeyFacts.
Import LabelingCollectorBase PyFacts LabelFacts LabelKeys.

Lemma keys_setitem_present (d : Py.dict) (k : string) (v : value) :
  Py.has_key d k = true -> Py.keys (Py.setitem d k v) = Py.keys d.
Proof.
  unfold Py.has_key, Py.keys.
  induction d as [| [k0 v0] d IH]; simpl; [ discriminate | ].
  destruct (String.eqb_spec k0 k) as [-> | _]; simpl; [ reflexivity | ].
  intros H; rewrite IH by exact H; reflexivity.
Qed.

Lemma keys_setitem_absent (d : Py.dict) (k : string) (v : value) :
  Py.has_key d k = false -> Py.keys (Py.setitem d k v) = Py.keys d ++ [k].
Proof.
  unfold Py.has_key, Py.keys.
  induction d as [| [k0 v0] d IH]; simpl; [ reflexivity | ].
  destruct (String.eqb_spec k0 k) as [-> | _]; simpl; [ discriminate | ].
  intros H; rewrite IH by exact H; reflexivity.
Qed.

Lemma has_key_keys (d : Py.dict) (k : string) :
  Py.has_key d k = true <-> In k (Py.keys d).
Proof.
  unfold Py.has_key, Py.keys.
  induction d as [| [k0 v0] d IH]; simpl; [ split; [ discriminate | tauto ] | ].
  destruct (String.eqb_spec k0 k) as [-> | Hne]; [ tauto | ].
  rewrite IH; split; [ auto | intros [H | H]; [ congruence | exact H ] ].
Qed.

Lemma NoDup_keys_setitem (d : Py.dict) (k : string) (v : value) :
  NoDup (Py.keys d) -> NoDup (Py.keys (Py.setitem d k v)).
Proof.
  intros Hnd. destruct (Py.has_key d k) eqn:Hk.
  - rewrite keys_setitem_present by exact Hk; exact Hnd.
  - rewrite keys_setitem_absent by exact Hk.
    apply NoDup_app; [ exact Hnd | repeat constructor; simpl; tauto | ].
    intros x Hx [<- | []]. apply has_key_keys in Hx. congruence.
Qed.

Lemma NoDup_keys_copy (resource : Py.dict) (label_keys : list string) : forall acc,
  NoDup (Py.keys acc) ->
  NoDup (Py.keys (fold_left (fun labels key => Py.setitem labels key (Py.get resource key))
                            label_keys acc)).
Proof.
  induction label_keys as [| key rest IH]; intros acc Hnd; simpl; [ exact Hnd | ].
  apply IH, NoDup_keys_setitem; exact Hnd.
Qed.

(** The overrides write to keys that are there: the keys stay those of the
    copy. *)
Lemma get_known_labels_keys_copy resource label_keys labels :
  get_known_labels resource label_keys = Ok labels ->
  Py.keys labels = Py.keys (copy_labels resource (requested label_keys)).
Proof.
  unfold get_known_labels; fold (requested label_keys).
  set (copied := copy_labels resource (requested label_keys)).
  set (named := if Py.has_key copied "name" then _ else copied).
  assert (Hnamed : Py.keys named = Py.keys copied).
  { subst named. destruct (Py.has_key copied "name") eqn:Hname; [ | reflexivity ].
    repeat match goal with
           | |- context [if ?c then _ else _] => destruct c
           end; try reflexivity; apply keys_setitem_present; exact Hname. }
  destruct (Py.has_key named "id") eqn:Hid; [ | intros [= <-]; exact Hnamed ].
  destruct (Py.eqb (Py.get named "type") (VStr "cluster")); [ | intros [= <-]; exact Hnamed ].
  intros H; bind_inv H; injection H as <-.
  rewrite keys_setitem_present by exact Hid. exact Hnamed.
Qed.

Lemma default_keys resource labels :
  get_known_labels resource None = Ok labels -> Py.keys labels = KNOWN_LABEL_KEYS.
Proof.
  intros H. rewrite (get_known_labels_keys_copy _ _ _ H). reflexivity.
Qed.

End KeyFacts.

(** X1.  The dictionary [get_known_labels] returns has the requested label
    names as its keys, each once: a name is a key exactly when it was
    requested, and with the default label names the keys are id, name,
    node, template, type in this order. *)
Theorem get_known_labels_keys (resource : Py.dict) (label_keys : option (list string))
  (labels : Py.dict) :
  LabelingCollectorBase.get_known_labels resource label_keys = Ok labels ->
  (forall k, In k (Py.keys labels) <-> In k (LabelKeys.requested label_keys)) /\
  Py.dict_wf labels /\
  (label_keys = None -> Py.keys labels = ["id"; "name"; "node"; "template"; "type"]).
Proof.
  intros H. split; [ | split ].
  - intros k. rewrite <- KeyFacts.has_key_keys.
    rewrite (LabelFacts.get_known_labels_has_key _ _ _ k H).
    apply LabelFacts.existsb_eqb_In.
  - unfold Py.dict_wf. rewrite (KeyFacts.get_known_labels_keys_copy _ _ _ H).
    apply KeyFacts.NoDup_keys_copy. constructor.
  - intros ->. apply (KeyFacts.default_keys _ _ H).
Qed.

Lemma get_known_labels_keys_witness :
  exists labels,
    LabelingCollectorBase.get_known_labels Examples.storage_resource None = Ok labels /\
    Py.dict_wf labels /\
    Py.keys labels = ["id"; "name"; "node"; "template"; "type"].
Proof.
  eexists; split; [ reflexivity | ].
  destruct (get_known_labels_keys Examples.storage_resource None _ eq_refl)
    as (_ & Hwf & Hkeys).
  split; [ exact Hwf | exact (Hkeys eq_refl) ].
Defined.

(** ** When [get_known_labels] raises *)

(** X2.  [get_known_labels] raises in one case only: the labels id and type
    are both requested, the type of the record is "cluster" and its name is
    not a string (an absent name included).  In every other case it
    returns. *)
Theorem get_known_labels_raises_iff (resource : Py.dict)
  (label_keys : option (list string)) :
  (exists e, LabelingCollectorBase.get_known_labels resource label_keys = Raise e) <->
  In "id" (LabelKeys.requested label_keys) /\
  In "type" (LabelKeys.requested label_keys) /\
  Py.get resource "type" = VStr "cluster" /\
  (forall s, Py.get resource "name" <> VStr s).
Proof.
  unfold LabelingCollectorBase.get_known_labels; fold (LabelKeys.requested label_keys).
  set (ks := LabelKeys.requested label_keys).
  set (copied := LabelingCollectorBase.copy_labels resource ks).
  set (named := if Py.has_key copied "name" then _ else copied).
  assert (Hty : Py.get named "type" =
                if existsb (String.eqb "type") ks then Py.get resource "type" else VNone).
  { rewrite <- LabelFacts.get_copy. fold copied. subst named.
    repeat match goal with
           | |- context [if ?c then _ else _] => destruct c
           end; try reflexivity; rewrite PyFacts.get_setitem; reflexivity. }
  assert (Hid : Py.has_key named "id" = existsb (String.eqb "id") ks).
  { rewrite <- LabelFacts.has_key_copy with (resource := resource). fold copied. subst named.
    repeat match goal with
           | |- context [if ?c then _ else _] => destruct c
           end; try reflexivity; rewrite PyFacts.has_key_setitem; reflexivity. }
  rewrite Hid, Hty. rewrite <- !LabelFacts.existsb_eqb_In.
  destruct (existsb (String.eqb "id") ks);
    [ | split; [ intros [e [=]] | intros [[=] _] ] ].
  destruct (existsb (String.eqb "type") ks).
  - destruct (Py.eqb (Py.get resource "type") (VStr "cluster")) eqn:Hcl.
    + apply PyFacts.eqb_str in Hcl.
      destruct (Py.get resource "name") as [| b | z | s] eqn:Hname; simpl;
        try (split; [ intros _; repeat split; auto; discriminate | eauto ]).
      split; [ intros [e [=]] | intros (_ & _ & _ & H); destruct (H s eq_refl) ].
    + split; [ intros [e [=]] | ].
      intros (_ & _ & H & _). apply PyFacts.eqb_str in H. congruence.
  - simpl. split; [ intros [e [=]] | intros (_ & [=] & _) ].
Qed.

(** ** The labels [get_known_labels] computes *)

(** X3.  With "type" among the requested labels, as with the default ones,
    the overrides follow the type of the record: the name of a storage
    record is its storage, the name of a node record is its node, and the
    identity of a cluster record is "cluster/" followed by its name. *)
Theorem get_known_labels_normalises (resource : Py.dict)
  (label_keys : option (list string)) (labels : Py.dict) :
  LabelingCollectorBase.get_known_labels resource label_keys = Ok labels ->
  In "type" (LabelKeys.requested label_keys) ->
  (In "name" (LabelKeys.requested label_keys) ->
   Py.get resource "type" = VStr "storage" ->
   Py.get labels "name" = Py.get resource "storage") /\
  (In "name" (LabelKeys.requested label_keys) ->
   Py.get resource "type" = VStr "node" ->
   Py.get labels "name" = Py.get resource "node") /\
  (In "id" (LabelKeys.requested label_keys) ->
   Py.get resource "type" = VStr "cluster" ->
   exists s, Py.get resource "name" = VStr s /\
             Py.get labels "id" = VStr ("cluster/" ++ s)%string).
Proof. apply LabelFacts.get_known_labels_overrides. Qed.

Lemma get_known_labels_normalises_witness :
  exists labels,
    LabelingCollectorBase.get_known_labels Examples.storage_resource None = Ok labels /\
    Py.get labels "name" = VStr "local-lvm".
Proof.
  eexists; split; [ reflexivity | ].
  refine (proj1 (get_known_labels_normalises Examples.storage_resource None _
                   eq_refl _) _ _).
  - simpl; auto 6.
  - simpl; auto.
  - reflexivity.
Defined.

(** X4.  Apart from the overrides, the labels are copies of the fields of
    the record: a requested label other than name and id has the value of
    the field; name has it unless the record is a storage or a node, id
    unless the record is a cluster; a label that was not requested is not
    in the result. *)
Theorem get_known_labels_copies (resource : Py.dict)
  (label_keys : option (list string)) (labels : Py.dict) :
  LabelingCollectorBase.get_known_labels resource label_keys = Ok labels ->
  (forall k, In k (LabelKeys.requested label_keys) -> k <> "name" -> k <> "id" ->
             Py.get labels k = Py.get resource k) /\
  (forall k, ~ In k (LabelKeys.requested label_keys) -> Py.lookup labels k = None) /\
  (In "name" (LabelKeys.requested label_keys) ->
   Py.get resource "type" <> VStr "storage" -> Py.get resource "type" <> VStr "node" ->
   Py.get labels "name" = Py.get resource "name") /\
  (In "id" (LabelKeys.requested label_keys) ->
   Py.get resource "type" <> VStr "cluster" ->
   Py.get labels "id" = Py.get resource "id").
Proof.
  intros H.
  pose proof (fun k => LabelFacts.get_known_labels_has_key _ _ _ k H) as Hkeys.
  revert H.
  unfold LabelingCollectorBase.get_known_labels; fold (LabelKeys.requested label_keys).
  set (ks := LabelKeys.requested label_keys) in *.
  set (copied := LabelingCollectorBase.copy_labels resource ks).
  assert (Hcopied : forall k, In k ks -> Py.get copied k = Py.get resource k).
  { intros k Hk. subst copied. rewrite LabelFacts.get_copy.
    apply LabelFacts.existsb_eqb_In in Hk. rewrite Hk; reflexivity. }
  assert (Hkind : forall kind,
             Py.get resource "type" <> VStr kind ->
             Py.eqb (Py.get copied "type") (VStr kind) = false).
  { intros kind Hne. destruct (Py.eqb _ _) eqn:He; [ | reflexivity ].
    apply PyFacts.eqb_str in He. subst copied. rewrite LabelFacts.get_copy in He.
    destruct (existsb (String.eqb "type") ks); [ congruence | discriminate ]. }
  set (named := if Py.has_key copied "name" then _ else copied).
  assert (Hnamed : forall k, k <> "name" -> Py.get named k = Py.get copied k).
  { intros k Hk. subst named.
    repeat match goal with
           | |- context [if ?c then _ else _] => destruct c
           end; try reflexivity; rewrite PyFacts.get_setitem;
      (destruct (String.eqb_spec "name" k); [ congruence | reflexivity ]). }
  assert (Hname : Py.get resource "type" <> VStr "storage" ->
                  Py.get resource "type" <> VStr "node" -> named = copied).
  { intros Hs Hn. subst named. rewrite (Hkind _ Hs), (Hkind _ Hn).
    destruct (Py.has_key copied "name"); reflexivity. }
  intros H.
  assert (Hlabels : forall k, k <> "id" -> Py.get labels k = Py.get named k).
  { intros k Hk. revert H.
    repeat match goal with
           | |- context [if ?c then _ else _] => destruct c
           end; try (intros [= <-]; reflexivity).
    intros H; bind_inv H; injection H as <-. rewrite PyFacts.get_setitem.
    destruct (String.eqb_spec "id" k); [ congruence | reflexivity ]. }
  split; [ | split; [ | split ] ].
  - intros k Hk Hn Hi. rewrite (Hlabels _ Hi), (Hnamed _ Hn). apply Hcopied; exact Hk.
  - intros k Hk. specialize (Hkeys k). unfold Py.has_key in Hkeys.
    destruct (existsb (String.eqb k) ks) eqn:He;
      [ apply LabelFacts.existsb_eqb_In in He; tauto | ].
    destruct (Py.lookup labels k); [ discriminate | reflexivity ].
  - intros Hk Hs Hn. rewrite (Hlabels "name") by discriminate.
    rewrite (Hname Hs Hn). apply Hcopied; exact Hk.
  - intros Hk Hc. revert H.
    rewrite (Hnamed "type") by discriminate. rewrite (Hkind _ Hc).
    destruct (Py.has_key named "id"); intros [= <-];
      (rewrite (Hnamed "id") by discriminate); apply Hcopied; exact Hk.
Qed.

Lemma get_known_labels_copies_witness :
  exists labels,
    LabelingCollectorBase.get_known_labels Examples.qemu_resource None = Ok labels /\
    Py.get labels "node" = VStr "pve1" /\
    Py.lookup labels "maxmem" = None /\
    Py.get labels "name" = VNone /\
    Py.get labels "id" = VStr "qemu/100".
Proof.
  eexists; split; [ reflexivity | ].
  destruct (get_known_labels_copies Examples.qemu_resource None _ eq_refl)
    as (Hcopy & Hout & Hname & Hid).
  split; [ apply Hcopy; [ simpl; auto | discriminate | discriminate ] | ].
  split; [ apply Hout; simpl; intuition discriminate | ].
  split; [ apply Hname; [ simpl; auto | discriminate | discriminate ] | ].
  apply Hid; [ simpl; auto | discriminate ].
Defined.

(** ** The order of the label values *)

(** X5.  On the labels of a record, [get_label_values] gives the same five
    values, those of id, name, node, template, type, whether it is called
    with the label names, as the status collector does, or without them
    (the names sorted), as the resources collector does: the up sample of
    a record and its resource samples carry the same label values. *)
Theorem get_label_values_default_order (resource labels : Py.dict) :
  LabelingCollectorBase.get_known_labels resource None = Ok labels ->
  LabelingCollectorBase.get_label_values labels None =
  LabelingCollectorBase.get_label_values
    labels (Some LabelingCollectorBase.KNOWN_LABEL_KEYS) /\
  LabelingCollectorBase.get_label_values labels None =
  map (fun key => LabelingCollectorBase.downcast_label_value (Py.get labels key))
      ["id"; "name"; "node"; "template"; "type"] /\
  (forall lv s, Routing.label_values_of resource = Ok lv ->
                Dedup.sample_of resource = Ok s -> sample_labels s = lv).
Proof.
  intros H.
  assert (Hsame : LabelingCollectorBase.get_label_values labels None =
                  LabelingCollectorBase.get_label_values
                    labels (Some LabelingCollectorBase.KNOWN_LABEL_KEYS)).
  { unfold LabelingCollectorBase.get_label_values.
    rewrite (KeyFacts.default_keys _ _ H). reflexivity. }
  split; [ exact Hsame | split; [ rewrite Hsame; reflexivity | ] ].
  intros lv s. unfold Routing.label_values_of, Dedup.sample_of. rewrite H; simpl.
  intros [= <-] Hs. bind_inv Hs. injection Hs as <-. symmetry; exact Hsame.
Qed.

Lemma get_label_values_default_order_witness :
  exists labels,
    LabelingCollectorBase.get_known_labels Examples.storage_resource None = Ok labels /\
    LabelingCollectorBase.get_label_values labels None =
    ["storage/pve1/local-lvm"; "local-lvm"; "pve1"; ""; "storage"].
Proof.
  eexists; split; [ reflexivity | ].
  destruct (get_label_values_default_order Examples.storage_resource _ eq_refl)
    as (_ & Hvalues & _).
  exact Hvalues.
Defined.

(** ** More on [StatusCollector.collect] *)

Module StatusMore.
Import LabelingCollectorBase StatusCollector PyFacts LabelFacts Dedup DedupFacts IdLabel.

(** A first record bears no identity of the set it was compared with. *)
Lemma first_records_fresh entries : forall seen entry,
  In entry (first_records seen entries) ->
  exists i, identity entry = Ok i /\ Py.contains seen i = false.
Proof.
  induction entries as [| e rest IH]; intros seen entry; cbn [first_records];
    [ intros [] | ].
  destruct (identity e) as [i | err] eqn:Hi; [ | apply IH ].
  destruct (Py.contains seen i) eqn:Hseen; [ apply IH | ].
  intros [<- | Hin]; [ eauto | ].
  destruct (IH _ _ Hin) as (j & Hj & Hfresh).
  exists j; split; [ exact Hj | ].
  unfold Py.contains in *; simpl in Hfresh.
  apply orb_false_iff in Hfresh; tauto.
Qed.

(** Where the identities are strings, the first records have pairwise
    distinct id labels. *)
Lemma first_records_id_labels entries : forall seen,
  Forall (fun entry => exists s, identity entry = Ok (VStr s)) entries ->
  NoDup (map id_label (first_records seen entries)).
Proof.
  induction entries as [| e rest IH]; intros seen Hall; cbn [first_records];
    [ constructor | ].
  inversion Hall as [| ? ? [s Hs] Hrest]; subst. rewrite Hs.
  destruct (Py.contains seen (VStr s)); [ apply IH; exact Hrest | ].
  cbn [map]. constructor; [ | apply IH; exact Hrest ].
  intros Hin. apply in_map_iff in Hin. destruct Hin as (e' & Hlabel & Hin').
  destruct (first_records_fresh _ _ _ Hin') as (j & Hj & Hfresh).
  rewrite Forall_forall in Hrest.
  destruct (Hrest e' (first_records_incl _ _ _ Hin')) as [s' Hs'].
  unfold id_label in Hlabel. rewrite Hs, Hs' in Hlabel. simpl in Hlabel. subst s'.
  rewrite Hs' in Hj. injection Hj as <-.
  unfold Py.contains in Hfresh; simpl in Hfresh.
  rewrite String.eqb_refl in Hfresh. discriminate.
Qed.

(** The id label of a sample is that of the record it was made from. *)
Lemma sample_id_label entry s :
  sample_of entry = Ok s -> sample_id s = id_label entry.
Proof.
  intros Hs. destruct (ValueFacts.sample_of_shape _ _ Hs) as (labels & Hl & _ & Hlv & _).
  unfold sample_id, id_label. rewrite Hlv, (identity_labels _ _ Hl). reflexivity.
Qed.

(** The loop over entries that earlier records all duplicate changes
    nothing. *)
Lemma loop_duplicates entries : forall seen fam,
  Forall (fun entry => exists i, identity entry = Ok i /\ Py.contains seen i = true)
         entries ->
  for_each (collect_entry KNOWN_LABEL_KEYS) entries (seen, fam) = Ok (seen, fam).
Proof.
  induction entries as [| e rest IH]; intros seen fam Hall; cbn [for_each];
    [ reflexivity | ].
  inversion Hall as [| ? ? (i & Hi & Hseen) Hrest]; subst.
  rewrite (collect_entry_seen _ _ _ _ Hi Hseen); cbn [bind].
  apply IH; exact Hrest.
Qed.

(** The loop returns when every record has an identity and every first
    record a supported kind. *)
Lemma loop_returns_first entries : forall seen fam,
  Forall (fun entry => exists i, identity entry = Ok i) entries ->
  Forall UpRule.supported_kind (first_records seen entries) ->
  exists final, for_each (collect_entry KNOWN_LABEL_KEYS) entries (seen, fam) = Ok final.
Proof.
  induction entries as [| e rest IH]; intros seen fam Hall Hkind; cbn [for_each];
    [ eauto | ].
  inversion Hall as [| ? ? [i Hi] Hrest]; subst.
  cbn [first_records] in Hkind. rewrite Hi in Hkind.
  destruct (Py.contains seen i) eqn:Hseen.
  - rewrite (collect_entry_seen _ _ _ _ Hi Hseen); cbn [bind]. apply IH; assumption.
  - inversion Hkind as [| ? ? Hk Hkrest]; subst.
    rewrite (collect_entry_new _ _ _ _ Hi Hseen).
    unfold sample_of. unfold identity in Hi.
    destruct (get_known_labels e None) as [labels | err]; [ | discriminate ].
    cbn [bind]. rewrite (StatusFacts.is_entry_up_supported _ Hk). cbn [bind].
    apply IH; assumption.
Qed.

Lemma map_each_Ok_all {A B : Type} (f : A -> result B) (xs : list A) (ys : list B) :
  map_each f xs = Ok ys -> Forall (fun x => exists y, f x = Ok y) xs.
Proof.
  intros H. apply map_each_Ok_inv in H.
  induction H; constructor; eauto.
Qed.

End StatusMore.

(** X7.  When the identity of every record is a string, no two samples of
    a scrape of the status collector have the same id label. *)
Theorem status_id_labels_distinct (pve : ProxmoxAPI) (fam : GaugeMetricFamily string) :
  StatusCollector.collect pve = Ok [fam] ->
  Forall (fun entry => exists s, Dedup.identity entry = Ok (VStr s)) (Dedup.chain pve) ->
  NoDup (map IdLabel.sample_id (samples fam)).
Proof.
  intros H Hstr.
  destruct (status_collect_loop _ _ H) as (seen & new & _ & Hfam & _ & Hnew).
  injection Hfam as ->. cbn [samples extend new_family app].
  apply map_each_Ok_inv in Hnew.
  assert (Hmap : forall firsts sampled,
             Forall2 (fun entry s => Dedup.sample_of entry = Ok s) firsts sampled ->
             map IdLabel.sample_id sampled = map IdLabel.id_label firsts).
  { induction 1 as [| entry s firsts sampled Hs _ IH]; [ reflexivity | ].
    cbn [map]. rewrite IH, (StatusMore.sample_id_label _ _ Hs). reflexivity. }
  rewrite (Hmap _ _ Hnew).
  apply StatusMore.first_records_id_labels; exact Hstr.
Qed.

Lemma status_id_labels_distinct_witness :
  NoDup ["node/pve1"; "qemu/100"; "storage/pve1/local-lvm"; "cluster/pvec"].
Proof.
  refine (status_id_labels_distinct Examples.pve _ eq_refl _).
  repeat (constructor; [ eexists; reflexivity | ]). constructor.
Defined.

(** X8.  The resources come first: when every status entry has the identity
    of some resource, the scrape of the status collector is the scrape of
    the resources alone, whatever the status entries say. *)
Theorem status_resources_take_precedence (pve : ProxmoxAPI) :
  Forall (fun entry => exists i, Dedup.identity entry = Ok i /\
                                 existsb (Dedup.bears i) (cluster_resources pve) = true)
         (cluster_status pve) ->
  StatusCollector.collect pve =
  StatusCollector.collect (mkAPI (cluster_resources pve) [] (version pve)).
Proof.
  intros Hdup. unfold StatusCollector.collect. cbn [cluster_resources cluster_status].
  rewrite app_nil_r, for_each_app.
  destruct (for_each _ (cluster_resources pve) _) as [[seen fam] | e] eqn:Hres;
    cbn [bind]; [ | reflexivity ].
  rewrite StatusMore.loop_duplicates; [ reflexivity | ].
  eapply Forall_impl; [ | exact Hdup ].
  intros entry (i & Hi & Hb). exists i; split; [ exact Hi | ].
  rewrite (DedupFacts.loop_seen _ _ _ _ _ i Hres), Hb. apply orb_true_r.
Qed.

Lemma status_resources_take_precedence_witness :
  StatusCollector.collect PrecedenceExample.pve =
  Ok [ mkFamily "pve_up" "Node/VM/CT-Status is online/running"
         ["id"; "name"; "node"; "template"; "type"]
         [ mkSample ["node/pve1"; "pve1"; "pve1"; ""; "node"] (VBool true) ] ].
Proof.
  rewrite (status_resources_take_precedence PrecedenceExample.pve).
  - reflexivity.
  - constructor; [ | constructor ].
    exists (VStr "node/pve1"); split; reflexivity.
Defined.

(** X9.  The status collector returns exactly when every record of the two
    sources has an identity and every record that is the first of its
    identity has a supported type; in every other case the scrape raises
    and gives no family. *)
Theorem status_collect_returns_iff (pve : ProxmoxAPI) :
  (exists fams, StatusCollector.collect pve = Ok fams) <->
  Forall (fun entry => exists i, Dedup.identity entry = Ok i) (Dedup.chain pve) /\
  Forall UpRule.supported_kind (Dedup.first_records [] (Dedup.chain pve)).
Proof.
  split.
  - intros [fams H].
    destruct (status_collect_loop _ _ H) as (seen & new & _ & _ & Hall & Hnew).
    split; [ exact Hall | ].
    apply StatusMore.map_each_Ok_all in Hnew.
    eapply Forall_impl; [ | exact Hnew ].
    intros entry [s Hs].
    destruct (ValueFacts.sample_of_shape _ _ Hs) as (_ & _ & Hk & _). exact Hk.
  - intros [Hall Hkind]. unfold StatusCollector.collect; fold (Dedup.chain pve).
    destruct (StatusMore.loop_returns_first _ []
                (new_family "pve_up" "Node/VM/CT-Status is online/running"
                            LabelingCollectorBase.KNOWN_LABEL_KEYS) Hall Hkind)
      as [final ->].
    cbn [bind]; eauto.
Qed.

(** ** The families of [ClusterResourcesCollector.collect] *)

Module ClosedFacts.
Import LabelingCollectorBase ClusterResourcesCollector Routing ResourcesFacts Closed.

Lemma find_family_absent (key : string) (fs : families) :
  ~ In key (map fst fs) -> find_family key fs = None.
Proof.
  induction fs as [| [k fam] fs IH]; simpl; intros H; [ reflexivity | ].
  destruct (String.eqb_spec k key) as [-> | _]; [ tauto | apply IH; tauto ].
Qed.

(** A store with distinct keys is known by its keys and its lookups. *)
Lemma grow_of_find (f : string -> list (Sample string)) (fs : families) :
  forall fs',
    NoDup (map fst fs) ->
    map fst fs' = map fst fs ->
    (forall key, find_family key fs' =
                 option_map (fun fam => extend fam (f key)) (find_family key fs)) ->
    fs' = grow f fs.
Proof.
  induction fs as [| [k fam] fs IH]; intros fs' Hnd Hkeys Hfind.
  - destruct fs'; [ reflexivity | discriminate ].
  - destruct fs' as [| [k' fam'] fs']; [ discriminate | ].
    simpl in Hkeys. injection Hkeys as -> Hkeys.
    inversion Hnd as [| ? ? Hfresh Hrest]; subst.
    pose proof (Hfind k) as Hk. simpl in Hk. rewrite String.eqb_refl in Hk.
    injection Hk as ->.
    unfold grow; cbn [map fst snd]. f_equal.
    apply IH; [ exact Hrest | exact Hkeys | ].
    intros key. destruct (String.eqb_spec k key) as [<- | Hne].
    + rewrite !find_family_absent; [ reflexivity | exact Hfresh | ].
      rewrite Hkeys; exact Hfresh.
    + specialize (Hfind key). simpl in Hfind.
      destruct (String.eqb_spec k key); [ congruence | exact Hfind ].
Qed.

Lemma names_keys (fs fs' : families) : names fs' = names fs -> map fst fs' = map fst fs.
Proof.
  intros H. apply (f_equal (map fst)) in H.
  unfold names in H. rewrite !map_map in H. exact H.
Qed.

Lemma route_info_find label_values restype (key : string) info_metrics :
  find_family key (route_info label_values restype info_metrics) =
  option_map (fun fam => extend fam (info_step key label_values restype))
             (find_family key info_metrics).
Proof.
  assert (Hnil : find_family key info_metrics =
                 option_map (fun fam => extend fam []) (find_family key info_metrics)).
  { destruct (find_family key info_metrics); simpl; [ rewrite extend_nil | ]; reflexivity. }
  unfold route_info, info_step. destruct restype as [| b | z | t]; try exact Hnil.
  destruct (lookup_info t info_lookup) as [target |]; [ | exact Hnil ].
  rewrite find_update. destruct (target =? key)%string; [ reflexivity | exact Hnil ].
Qed.

Lemma collect_resource_step metrics info_metrics resource state :
  collect_resource (metrics, info_metrics) resource = Ok state ->
  exists label_values,
    label_values_of resource = Ok label_values /\
    state = (route_items label_values resource metrics,
             route_info label_values (Py.get resource "type") info_metrics).
Proof.
  unfold collect_resource, label_values_of; intros H.
  destruct (get_known_labels resource None) as [labels | e]; cbn [bind] in *;
    [ | discriminate ].
  injection H as <-. eexists; split; reflexivity.
Qed.

Lemma info_step_contribution (key : string) resource label_values :
  label_values_of resource = Ok label_values ->
  info_step key label_values (Py.get resource "type") = info_contribution key resource.
Proof.
  intros H. unfold info_step, info_contribution. rewrite H.
  destruct (Py.get resource "type"); reflexivity.
Qed.

(** The loop, on the info families. *)
Lemma loop_info resources : forall metrics info_metrics metrics' info_metrics',
  for_each collect_resource resources (metrics, info_metrics)
  = Ok (metrics', info_metrics') ->
  forall key,
    find_family key info_metrics' =
    option_map (fun fam => extend fam (flat_map (info_contribution key) resources))
               (find_family key info_metrics).
Proof.
  induction resources as [| resource rest IH];
    intros metrics info_metrics metrics' info_metrics' H key; cbn [for_each] in H.
  - injection H as <- <-.
    destruct (find_family key info_metrics); simpl; [ rewrite extend_nil | ]; reflexivity.
  - bind_inv H. destruct (collect_resource_step _ _ _ _ Ha) as (lv & Hlv & ->).
    rewrite (IH _ _ _ _ H key), route_info_find.
    rewrite (info_step_contribution _ _ _ Hlv).
    destruct (find_family key info_metrics); simpl; [ | reflexivity ].
    rewrite extend_extend; reflexivity.
Qed.

Lemma NoDup_strings (xs : list string) :
  forallb (fun x => Nat.eqb (count_occ string_dec xs x) 1) xs = true -> NoDup xs.
Proof.
  intros H. apply (NoDup_count_occ' string_dec). intros x Hx.
  rewrite forallb_forall in H. apply Nat.eqb_eq. apply H; exact Hx.
Qed.

(** The families of a scrape that returns. *)
Lemma collect_expected (pve : ProxmoxAPI) fams :
  Forall Py.dict_wf (cluster_resources pve) ->
  ClusterResourcesCollector.collect pve = Ok fams ->
  fams = expected (cluster_resources pve).
Proof.
  intros Hwf H. unfold ClusterResourcesCollector.collect in H.
  bind_inv H. destruct a as [ms ims]. injection H as <-.
  destruct (loop_routes _ _ _ _ _ Hwf Ha) as (_ & Hms & Hims & Hfind).
  pose proof (loop_info _ _ _ _ _ Ha) as Hinfo.
  unfold expected. f_equal; f_equal.
  - apply grow_of_find; [ apply NoDup_strings; reflexivity | | exact Hfind ].
    apply names_keys; exact Hms.
  - apply grow_of_find; [ apply NoDup_strings; reflexivity | | exact Hinfo ].
    apply names_keys; exact Hims.
Qed.

(** The label values of a record are five. *)
Lemma label_values_five resource label_values :
  label_values_of resource = Ok label_values -> List.length label_values = 5.
Proof.
  unfold label_values_of; intros H. bind_inv H. injection H as <-.
  unfold get_label_values. rewrite (KeyFacts.default_keys _ _ Ha). reflexivity.
Qed.

Lemma contribution_five (field : string) resources :
  Forall (fun s => List.length (sample_labels s) = 5)
         (flat_map (contribution field) resources).
Proof.
  apply Forall_forall. intros s Hs. apply in_flat_map in Hs.
  destruct Hs as (resource & _ & Hs). unfold contribution in Hs.
  destruct (Py.lookup resource field); [ | destruct Hs ].
  destruct (label_values_of resource) as [lv | e] eqn:Hlv; [ | destruct Hs ].
  destruct Hs as [<- | []]. apply (label_values_five _ _ Hlv).
Qed.

Lemma info_contribution_five (target : string) resources :
  Forall (fun s => List.length (sample_labels s) = 5)
         (flat_map (info_contribution target) resources).
Proof.
  apply Forall_forall. intros s Hs. apply in_flat_map in Hs.
  destruct Hs as (resource & _ & Hs). unfold info_contribution in Hs.
  destruct (Py.get resource "type") as [| b | z | t]; try destruct Hs.
  destruct (label_values_of resource) as [lv | e] eqn:Hlv; [ | destruct Hs ].
  destruct (lookup_info t info_lookup) as [target' |]; [ | destruct Hs ].
  destruct (target' =? target)%string; [ | destruct Hs ].
  destruct Hs as [<- | []]. apply (label_values_five _ _ Hlv).
Qed.

Lemma info_contribution_guest resource :
  info_contribution "guest" resource = info_sample_for ["lxc"; "qemu"] resource.
Proof.
  unfold info_contribution, info_sample_for.
  destruct (label_values_of resource) as [lv | e];
    [ | destruct (Py.get resource "type"); reflexivity ].
  destruct (Py.get resource "type") as [| b | z | t]; try reflexivity.
  unfold Py.contains, info_lookup; cbn [map existsb lookup_info Py.eqb].
  rewrite (String.eqb_sym "lxc" t), (String.eqb_sym "qemu" t), (String.eqb_sym "storage" t).
  destruct (String.eqb_spec t "lxc") as [-> | _]; [ reflexivity | ].
  destruct (String.eqb_spec t "qemu") as [-> | _]; [ reflexivity | ].
  destruct (String.eqb_spec t "storage") as [-> | _]; reflexivity.
Qed.

Lemma info_contribution_storage resource :
  info_contribution "storage" resource = info_sample_for ["storage"] resource.
Proof.
  unfold info_contribution, info_sample_for.
  destruct (label_values_of resource) as [lv | e];
    [ | destruct (Py.get resource "type"); reflexivity ].
  destruct (Py.get resource "type") as [| b | z | t]; try reflexivity.
  unfold Py.contains, info_lookup; cbn [map existsb lookup_info Py.eqb].
  rewrite (String.eqb_sym "lxc" t), (String.eqb_sym "qemu" t), (String.eqb_sym "storage" t).
  destruct (String.eqb_spec t "lxc") as [-> | _]; [ reflexivity | ].
  destruct (String.eqb_spec t "qemu") as [-> | _]; [ reflexivity | ].
  destruct (String.eqb_spec t "storage") as [-> | _]; reflexivity.
Qed.

Lemma flat_map_ext_eq {A B : Type} (f g : A -> list B) (xs : list A) :
  (forall x, f x = g x) -> flat_map f xs = flat_map g xs.
Proof.
  intros H; induction xs as [| x xs IH]; simpl; [ reflexivity | ].
  rewrite H, IH; reflexivity.
Qed.

End ClosedFacts.

(** X10.  A scrape of the resources that returns gives thirteen families,
    the eleven of the routed fields and the two info families, always in
    the same order and under the same names, each with the label names id,
    name, node, template, type: a family that got no sample is returned
    all the same, empty. *)
Theorem resources_families_always_declared (pve : ProxmoxAPI)
  (fams : list (GaugeMetricFamily string)) :
  Forall Py.dict_wf (cluster_resources pve) ->
  ClusterResourcesCollector.collect pve = Ok fams ->
  map name fams =
  [ "pve_disk_size_bytes"; "pve_disk_usage_bytes"; "pve_memory_size_bytes";
    "pve_memory_usage_bytes"; "pve_network_transmit_bytes";
    "pve_network_receive_bytes"; "pve_disk_write_bytes"; "pve_disk_read_bytes";
    "pve_cpu_usage_ratio"; "pve_cpu_usage_limit"; "pve_uptime_seconds";
    "pve_guest_info"; "pve_storage_info" ] /\
  Forall (fun fam => labelnames fam = ["id"; "name"; "node"; "template"; "type"]) fams /\
  (cluster_resources pve = [] -> Forall (fun fam => samples fam = []) fams).
Proof.
  intros Hwf H. rewrite (ClosedFacts.collect_expected _ _ Hwf H).
  split; [ reflexivity | split ].
  - repeat constructor.
  - intros ->. repeat constructor.
Qed.

Lemma resources_families_always_declared_witness :
  exists fams,
    ClusterResourcesCollector.collect (mkAPI [] [] []) = Ok fams /\
    Forall (fun fam => samples fam = []) fams /\
    List.length fams = 13.
Proof.
  eexists; split; [ reflexivity | ].
  destruct (resources_families_always_declared (mkAPI [] [] []) _
              (Forall_nil _) eq_refl) as (_ & _ & Hempty).
  split; [ exact (Hempty eq_refl) | reflexivity ].
Defined.

(** X11.  The two info families of a scrape of the resources: the guest
    info family has, record after record, one sample valued 1 with the
    label values of the record for each record whose type is lxc or qemu,
    the storage info family one for each record whose type is storage; a
    record of another type, a node for one, gives neither a sample. *)
Theorem resources_info_routing (pve : ProxmoxAPI)
  (fams : list (GaugeMetricFamily string)) :
  Forall Py.dict_wf (cluster_resources pve) ->
  ClusterResourcesCollector.collect pve = Ok fams ->
  exists guest storage,
    nth_error fams 11 = Some guest /\ nth_error fams 12 = Some storage /\
    name guest = "pve_guest_info" /\
    samples guest = flat_map (Closed.info_sample_for ["lxc"; "qemu"])
                             (cluster_resources pve) /\
    name storage = "pve_storage_info" /\
    samples storage = flat_map (Closed.info_sample_for ["storage"])
                               (cluster_resources pve).
Proof.
  intros Hwf H. rewrite (ClosedFacts.collect_expected _ _ Hwf H).
  eexists; eexists.
  split; [ reflexivity | split; [ reflexivity | split; [ reflexivity | split ] ] ].
  - cbn [samples extend ClusterResourcesCollector.info_metrics_table new_family
         Closed.grow map fst snd app].
    apply ClosedFacts.flat_map_ext_eq, ClosedFacts.info_contribution_guest.
  - split; [ reflexivity | ].
    cbn [samples extend ClusterResourcesCollector.info_metrics_table new_family
         Closed.grow map fst snd app].
    apply ClosedFacts.flat_map_ext_eq, ClosedFacts.info_contribution_storage.
Qed.

Lemma resources_info_routing_witness :
  exists guest storage : GaugeMetricFamily string,
    samples guest = [ mkSample ["qemu/100"; ""; "pve1"; ""; "qemu"] (VInt 1) ] /\
    samples storage =
    [ mkSample ["storage/pve1/local-lvm"; "local-lvm"; "pve1"; ""; "storage"] (VInt 1) ].
Proof.
  assert (Hwf : Forall Py.dict_wf (cluster_resources Examples.pve)).
  { repeat (constructor;
            [ unfold Py.dict_wf; simpl;
              repeat (constructor; [ simpl; intuition discriminate | ]); constructor | ]).
    constructor. }
  destruct (resources_info_routing Examples.pve _ Hwf eq_refl)
    as (guest & storage & _ & _ & _ & Hguest & _ & Hstorage).
  exists guest, storage; split; [ exact Hguest | exact Hstorage ].
Defined.

(** X12.  The resources collector keeps no memory of the records it has
    seen: the scrape of two lists of resources one after the other is,
    family by family, the samples of the first scrape followed by those of
    the second, so a record listed twice is sampled twice. *)
Theorem resources_collect_app (pve1 pve2 pve : ProxmoxAPI)
  (fams1 fams2 : list (GaugeMetricFamily string)) :
  Forall Py.dict_wf (cluster_resources pve1) ->
  Forall Py.dict_wf (cluster_resources pve2) ->
  ClusterResourcesCollector.collect pve1 = Ok fams1 ->
  ClusterResourcesCollector.collect pve2 = Ok fams2 ->
  cluster_resources pve = cluster_resources pve1 ++ cluster_resources pve2 ->
  ClusterResourcesCollector.collect pve = Ok (Closed.merge fams1 fams2).
Proof.
  intros Hwf1 Hwf2 H1 H2 Happ.
  assert (Hwf : Forall Py.dict_wf (cluster_resources pve))
    by (rewrite Happ; apply Forall_app; auto).
  assert (Hlv : Forall (fun resource => exists lv, Routing.label_values_of resource = Ok lv)
                       (cluster_resources pve)).
  { rewrite Happ. apply Forall_app. split.
    - unfold ClusterResourcesCollector.collect in H1. bind_inv H1.
      destruct a as [ms ims].
      apply (ResourcesFacts.loop_routes _ _ _ _ _ Hwf1 Ha).
    - unfold ClusterResourcesCollector.collect in H2. bind_inv H2.
      destruct a as [ms ims].
      apply (ResourcesFacts.loop_routes _ _ _ _ _ Hwf2 Ha). }
  destruct (ClusterResourcesCollector.collect pve) as [fams | e] eqn:Hc.
  - rewrite (ClosedFacts.collect_expected _ _ Hwf Hc).
    rewrite (ClosedFacts.collect_expected _ _ Hwf1 H1).
    rewrite (ClosedFacts.collect_expected _ _ Hwf2 H2).
    rewrite Happ. unfold Closed.expected, Closed.merge, Closed.grow.
    cbn [ClusterResourcesCollector.metrics_table
         ClusterResourcesCollector.info_metrics_table new_family extend samples
         name documentation labelnames map fst snd app combine].
    rewrite !flat_map_app. reflexivity.
  - exfalso. unfold ClusterResourcesCollector.collect in Hc.
    destruct (ResourcesFacts.resources_loop_returns (cluster_resources pve)
                (ClusterResourcesCollector.metrics_table
                   LabelingCollectorBase.KNOWN_LABEL_KEYS,
                 ClusterResourcesCollector.info_metrics_table
                   LabelingCollectorBase.KNOWN_LABEL_KEYS) Hlv) as [[ms ims] Hfinal].
    rewrite Hfinal in Hc. discriminate.
Qed.

Lemma resources_collect_app_witness :
  exists fams,
    ClusterResourcesCollector.collect (mkAPI [Examples.qemu_resource] [] []) = Ok fams /\
    ClusterResourcesCollector.collect
      (mkAPI [Examples.qemu_resource; Examples.qemu_resource] [] [])
    = Ok (Closed.merge fams fams).
Proof.
  assert (Hwf : Forall Py.dict_wf [Examples.qemu_resource]).
  { constructor; [ | constructor ]. unfold Py.dict_wf; simpl.
    repeat (constructor; [ simpl; intuition discriminate | ]); constructor. }
  eexists; split; [ reflexivity | ].
  apply (resources_collect_app (mkAPI [Examples.qemu_resource] [] [])
                               (mkAPI [Examples.qemu_resource] [] []));
    try exact Hwf; reflexivity.
Defined.

(** ** More on the info collectors *)

Module SchemaFacts.
Import PyFacts SchemaSpec InfoFacts Ready CollectFacts.

Lemma keys_remove_incl (d : Py.dict) (k k' : string) :
  In k' (Py.keys (Py.remove d k)) -> In k' (Py.keys d).
Proof.
  unfold Py.keys. induction d as [| [k0 v0] d IH]; simpl; [ tauto | ].
  destruct (k0 =? k)%string; simpl; [ auto | intros [H | H]; auto ].
Qed.

Lemma keys_remove_absent (d : Py.dict) (k : string) :
  NoDup (Py.keys d) -> ~ In k (Py.keys (Py.remove d k)).
Proof.
  unfold Py.keys. induction d as [| [k0 v0] d IH]; simpl; intros Hnd; [ tauto | ].
  inversion Hnd as [| ? ? Hfresh Hrest]; subst.
  destruct (String.eqb_spec k0 k) as [-> | Hne]; simpl; [ exact Hfresh | ].
  intros [H | H]; [ congruence | apply (IH Hrest H) ].
Qed.

Lemma NoDup_keys_remove (d : Py.dict) (k : string) :
  NoDup (Py.keys d) -> NoDup (Py.keys (Py.remove d k)).
Proof.
  unfold Py.keys. induction d as [| [k0 v0] d IH]; simpl; intros Hnd; [ constructor | ].
  inversion Hnd as [| ? ? Hfresh Hrest]; subst.
  destruct (k0 =? k)%string; simpl; [ exact Hrest | ].
  constructor; [ | apply IH; exact Hrest ].
  intros H. apply Hfresh. apply (keys_remove_incl d k). exact H.
Qed.

Lemma strip_node_keys (node : Py.dict) :
  Py.dict_wf node ->
  NoDup (Py.keys (strip_node node)) /\
  ~ In "type" (Py.keys (strip_node node)) /\
  ~ In "online" (Py.keys (strip_node node)).
Proof.
  unfold Py.dict_wf, strip_node; intros Hwf.
  pose proof (NoDup_keys_remove node "type" Hwf) as Hnd.
  split; [ apply NoDup_keys_remove; exact Hnd | split ].
  - intros H. apply keys_remove_incl in H. apply (keys_remove_absent _ _ Hwf H).
  - apply keys_remove_absent; exact Hnd.
Qed.

Lemma strip_cluster_keys (cluster : Py.dict) :
  Py.dict_wf cluster ->
  NoDup (Py.keys (strip_cluster cluster)) /\
  ~ In "type" (Py.keys (strip_cluster cluster)) /\
  ~ In "name" (Py.keys (strip_cluster cluster)) /\
  In "id" (Py.keys (strip_cluster cluster)).
Proof.
  unfold Py.dict_wf, strip_cluster; intros Hwf.
  set (v := VStr _).
  pose proof (NoDup_keys_remove cluster "type" Hwf) as Hnd.
  pose proof (KeyFacts.NoDup_keys_setitem _ "id" v Hnd) as Hnd'.
  split; [ apply NoDup_keys_remove; exact Hnd' | split; [ | split ] ].
  - intros H. apply keys_remove_incl in H.
    apply KeyFacts.has_key_keys in H. rewrite has_key_setitem in H.
    simpl in H. apply KeyFacts.has_key_keys in H.
    apply (keys_remove_absent _ _ Hwf H).
  - apply keys_remove_absent; exact Hnd'.
  - apply KeyFacts.has_key_keys. rewrite has_key_remove_other by discriminate.
    rewrite has_key_setitem. reflexivity.
Qed.

Lemma matching_In (kind : string) (status : list Py.dict) (entry : Py.dict) :
  In entry (matching kind status) -> In entry status.
Proof. unfold matching; intros H; apply filter_In in H; tauto. Qed.

Lemma matching_idempotent (kind : string) (status : list Py.dict) :
  matching kind (matching kind status) = matching kind status.
Proof.
  unfold matching. induction status as [| entry rest IH]; simpl; [ reflexivity | ].
  destruct (Py.eqb (Py.get entry "type") (VStr kind)) eqn:He; simpl;
    [ rewrite He, IH | rewrite IH ]; reflexivity.
Qed.

(** The value of id in a stripped cluster record. *)
Lemma strip_cluster_id (cluster : Py.dict) :
  Py.get (strip_cluster cluster) "id" =
  VStr ("cluster/" ++ Py.str (Py.get cluster "name"))%string.
Proof.
  unfold strip_cluster. rewrite get_remove_other by discriminate.
  rewrite get_setitem. reflexivity.
Qed.

End SchemaFacts.

(** X13.  The bookkeeping fields do not reach the label names.  On a batch
    of dicts, the label names of the node info family are pairwise distinct
    and hold neither type nor online; those of the cluster info family are
    pairwise distinct, hold neither type nor name, and hold id. *)
Theorem info_label_names (pve : ProxmoxAPI) (fam : GaugeMetricFamily string) :
  Forall Py.dict_wf (cluster_status pve) ->
  (ClusterNodeCollector.collect pve = Ok [fam] ->
   NoDup (labelnames fam) /\
   ~ In "type" (labelnames fam) /\ ~ In "online" (labelnames fam)) /\
  (ClusterInfoCollector.collect pve = Ok [fam] ->
   NoDup (labelnames fam) /\
   ~ In "type" (labelnames fam) /\ ~ In "name" (labelnames fam) /\
   In "id" (labelnames fam)).
Proof.
  intros Hwf. rewrite Forall_forall in Hwf. split; intros H.
  - destruct (CollectFacts.node_collect_Ok _ _ H) as [_ Hfam].
    unfold SchemaSpec.node_info in Hfam.
    destruct (SchemaSpec.matching "node" (cluster_status pve)) as [| node rest] eqn:Hm;
      [ discriminate | ].
    injection Hfam as ->. cbn [labelnames]. apply SchemaFacts.strip_node_keys.
    apply Hwf. apply (SchemaFacts.matching_In "node"). rewrite Hm; left; reflexivity.
  - destruct (CollectFacts.cluster_collect_Ok _ _ H) as [_ Hfam].
    unfold SchemaSpec.cluster_info in Hfam.
    destruct (SchemaSpec.matching "cluster" (cluster_status pve)) as [| cluster rest] eqn:Hm;
      [ discriminate | ].
    injection Hfam as ->. cbn [labelnames]. apply SchemaFacts.strip_cluster_keys.
    apply Hwf. apply (SchemaFacts.matching_In "cluster"). rewrite Hm; left; reflexivity.
Qed.

Lemma info_label_names_witness :
  NoDup ["id"; "name"; "ip"; "local"] /\
  ~ In "type" ["id"; "name"; "ip"; "local"] /\ ~ In "online" ["id"; "name"; "ip"; "local"].
Proof.
  refine (proj1 (info_label_names Examples.pve _ _) eq_refl).
  repeat (constructor;
          [ unfold Py.dict_wf; simpl;
            repeat (constructor; [ simpl; intuition discriminate | ]); constructor | ]).
  constructor.
Defined.

(** X14.  The schema is that of the first record and the later records are
    read with it: when a later node record (or cluster record) lacks one
    of the fields the first one keeps, the collector raises and gives no
    family. *)
Theorem info_schema_divergence_raises (pve : ProxmoxAPI)
  (record0 record : Py.dict) (rest : list Py.dict) (key : string) :
  In record rest ->
  (SchemaSpec.matching "node" (cluster_status pve) = record0 :: rest ->
   In key (Py.keys (SchemaSpec.strip_node record0)) ->
   Py.has_key (SchemaSpec.strip_node record) key = false ->
   exists e, ClusterNodeCollector.collect pve = Raise e) /\
  (SchemaSpec.matching "cluster" (cluster_status pve) = record0 :: rest ->
   In key (Py.keys (SchemaSpec.strip_cluster record0)) ->
   Py.has_key (SchemaSpec.strip_cluster record) key = false ->
   exists e, ClusterInfoCollector.collect pve = Raise e).
Proof.
  intros Hin. split; intros Hm Hkey Hmiss.
  - destruct (ClusterNodeCollector.collect pve) as [fams | e] eqn:Hc; [ | eauto ].
    exfalso. destruct (CollectFacts.node_collect_Ok _ _ Hc) as [(_ & _ & Huni) _].
    rewrite Hm in Huni. cbn [map Ready.uniform] in Huni.
    inversion Huni as [| ? ? _ Hrest]; subst.
    rewrite Forall_forall in Hrest.
    specialize (Hrest _ (in_map SchemaSpec.strip_node _ _ Hin)).
    rewrite Forall_forall in Hrest. rewrite (Hrest _ Hkey) in Hmiss. discriminate.
  - destruct (ClusterInfoCollector.collect pve) as [fams | e] eqn:Hc; [ | eauto ].
    exfalso. destruct (CollectFacts.cluster_collect_Ok _ _ Hc) as [(_ & _ & Huni) _].
    rewrite Hm in Huni. cbn [map Ready.uniform] in Huni.
    inversion Huni as [| ? ? _ Hrest]; subst.
    rewrite Forall_forall in Hrest.
    specialize (Hrest _ (in_map SchemaSpec.strip_cluster _ _ Hin)).
    rewrite Forall_forall in Hrest. rewrite (Hrest _ Hkey) in Hmiss. discriminate.
Qed.

Lemma info_schema_divergence_raises_witness :
  exists e, ClusterNodeCollector.collect DivergenceExample.pve = Raise e.
Proof.
  refine (proj1 (info_schema_divergence_raises DivergenceExample.pve
                   Examples.node_status DivergenceExample.silent_node
                   [DivergenceExample.silent_node] "ip" _) _ _ _).
  - left; reflexivity.
  - reflexivity.
  - simpl; auto.
  - reflexivity.
Defined.

(** X15.  A cluster has the same id label in the two families that
    describe it.  When the cluster info collector returns a family, id is
    one of its label names, its samples are those of the cluster entries
    of the batch in their order, and the value each sample has for id is
    "cluster/" followed by the name of its entry: the id label that
    [get_known_labels] gives this entry, which the status collector
    uses. *)
Theorem cluster_id_agrees (pve : ProxmoxAPI) (fam : GaugeMetricFamily string) :
  ClusterInfoCollector.collect pve = Ok [fam] ->
  exists pos,
    nth_error (labelnames fam) pos = Some "id" /\
    Forall2 (fun cluster s =>
               exists cluster_name labels,
                 Py.get cluster "name" = VStr cluster_name /\
                 nth_error (sample_labels s) pos
                 = Some ("cluster/" ++ cluster_name)%string /\
                 LabelingCollectorBase.get_known_labels cluster None = Ok labels /\
                 LabelingCollectorBase.downcast_label_value (Py.get labels "id")
                 = ("cluster/" ++ cluster_name)%string)
            (SchemaSpec.matching "cluster" (cluster_status pve)) (samples fam).
Proof.
  intros H.
  destruct (CollectFacts.cluster_collect_Ok _ _ H) as [(_ & Hnamed & _) Hfam].
  unfold SchemaSpec.cluster_info in Hfam.
  assert (Hkind : Forall (fun cluster => Py.get cluster "type" = VStr "cluster")
                         (SchemaSpec.matching "cluster" (cluster_status pve))).
  { apply Forall_forall. intros cluster Hin. apply filter_In in Hin.
    apply PyFacts.eqb_str; tauto. }
  destruct (SchemaSpec.matching "cluster" (cluster_status pve)) as [| cluster0 rest];
    [ discriminate | ].
  injection Hfam as ->. cbn [labelnames samples].
  set (schema := Py.keys (SchemaSpec.strip_cluster cluster0)).
  assert (Hid : In "id" schema).
  { apply KeyFacts.has_key_keys. unfold SchemaSpec.strip_cluster.
    rewrite InfoFacts.has_key_remove_other by discriminate.
    rewrite PyFacts.has_key_setitem. reflexivity. }
  destruct (In_nth_error _ _ Hid) as [pos Hpos].
  exists pos; split; [ exact Hpos | ].
  assert (Hall : forall clusters,
             Forall Ready.has_name clusters ->
             Forall (fun cluster => Py.get cluster "type" = VStr "cluster") clusters ->
             Forall2 (fun cluster s =>
                        exists cluster_name labels,
                          Py.get cluster "name" = VStr cluster_name /\
                          nth_error (sample_labels s) pos
                          = Some ("cluster/" ++ cluster_name)%string /\
                          LabelingCollectorBase.get_known_labels cluster None
                          = Ok labels /\
                          LabelingCollectorBase.downcast_label_value
                            (Py.get labels "id")
                          = ("cluster/" ++ cluster_name)%string)
                     clusters
                     (map (SchemaSpec.info_sample schema)
                          (map SchemaSpec.strip_cluster clusters))).
  { induction clusters as [| cluster clusters IH]; intros Hn Hk; cbn [map];
      constructor.
    - inversion Hn as [| ? ? [s Hs] _]; subst.
      inversion Hk as [| ? ? Hty _]; subst.
      assert (Hname : Py.get cluster "name" = VStr s)
        by (unfold Py.get; rewrite Hs; reflexivity).
      destruct (LabelFacts.get_known_labels_total_named cluster None s Hname)
        as [labels Hl].
      exists s, labels. split; [ exact Hname | split; [ | split; [ exact Hl | ] ] ].
      + unfold SchemaSpec.info_sample; cbn [sample_labels].
        rewrite nth_error_map, Hpos. cbn [option_map].
        rewrite SchemaFacts.strip_cluster_id, Hname. reflexivity.
      + destruct (LabelFacts.get_known_labels_overrides _ _ _ Hl) as (_ & _ & Hlid);
          [ simpl; auto 6 | ].
        destruct (Hlid ltac:(simpl; auto) Hty) as (s' & Hs' & ->).
        rewrite Hname in Hs'. injection Hs' as <-. reflexivity.
    - apply IH; [ inversion Hn; assumption | inversion Hk; assumption ]. }
  exact (Hall _ Hnamed Hkind).
Qed.

Lemma cluster_id_agrees_witness :
  exists pos,
    nth_error ["quorate"; "nodes"; "id"] pos = Some "id" /\
    Forall2 (fun cluster s =>
               exists cluster_name labels,
                 Py.get cluster "name" = VStr cluster_name /\
                 nth_error (sample_labels s) pos
                 = Some ("cluster/" ++ cluster_name)%string /\
                 LabelingCollectorBase.get_known_labels cluster None = Ok labels /\
                 LabelingCollectorBase.downcast_label_value (Py.get labels "id")
                 = ("cluster/" ++ cluster_name)%string)
            [Examples.cluster_status_entry]
            [mkSample ["1"; "2"; "cluster/pvec"] (VInt 1)].
Proof.
  exact (cluster_id_agrees Examples.pve
           (mkFamily "pve_cluster_info" "Cluster info" ["quorate"; "nodes"; "id"]
                     [mkSample ["1"; "2"; "cluster/pvec"] (VInt 1)])
           eq_refl).
Defined.

(** X16.  An info collector sees the records of its kind only: when every
    entry of the batch has a type, the node info collector gives on the
    batch what it gives on the node entries alone, and the cluster info
    collector what it gives on the cluster entries alone. *)
Theorem info_collectors_ignore_other_kinds (pve : ProxmoxAPI) :
  Forall Ready.has_type (cluster_status pve) ->
  ClusterNodeCollector.collect pve =
  ClusterNodeCollector.collect
    (mkAPI (cluster_resources pve) (SchemaSpec.matching "node" (cluster_status pve))
           (version pve)) /\
  ClusterInfoCollector.collect pve =
  ClusterInfoCollector.collect
    (mkAPI (cluster_resources pve) (SchemaSpec.matching "cluster" (cluster_status pve))
           (version pve)).
Proof.
  intros Hty. unfold ClusterNodeCollector.collect, ClusterInfoCollector.collect.
  cbn [cluster_status].
  rewrite !(InfoFacts.filter_each_type_returns _ _ Hty).
  rewrite !(InfoFacts.filter_each_type_returns _ _ (CollectFacts.matching_has_type _ _)).
  rewrite !SchemaFacts.matching_idempotent. split; reflexivity.
Qed.

Lemma info_collectors_ignore_other_kinds_witness :
  ClusterNodeCollector.collect Examples.pve =
  ClusterNodeCollector.collect (mkAPI [] [Examples.node_status] []).
Proof.
  rewrite (proj1 (info_collectors_ignore_other_kinds Examples.pve
                    ltac:(repeat constructor))).
  reflexivity.
Defined.

(** ** The shape of the families *)

Module ShapeFacts.
Import Shape.

Lemma info_family_shaped (n doc : string) (records : list Py.dict) :
  Forall well_shaped (SchemaSpec.info_family n doc records).
Proof.
  unfold SchemaSpec.info_family. destruct records as [| record0 rest]; constructor;
    [ | constructor ].
  unfold well_shaped; cbn [samples labelnames].
  apply Forall_forall. intros s Hs. apply in_map_iff in Hs.
  destruct Hs as (record & <- & _). unfold SchemaSpec.info_sample; cbn [sample_labels].
  apply length_map.
Qed.

Lemma status_samples_five (entries : list Py.dict) (sampled : list (Sample string)) :
  Forall2 (fun entry s => Dedup.sample_of entry = Ok s) entries sampled ->
  Forall (fun s => List.length (sample_labels s) = 5) sampled.
Proof.
  induction 1 as [| entry s entries sampled Hs _ IH]; constructor; [ | exact IH ].
  destruct (ValueFacts.sample_of_shape _ _ Hs) as (labels & _ & _ & -> & _). reflexivity.
Qed.

End ShapeFacts.

(** X17.  In every family a collector returns, every sample has as many
    label values as the family has label names: five in the families of
    the status and resources collectors, the size of the schema in those
    of the info collectors, the number of fields kept in that of the
    version collector. *)
Theorem families_well_shaped (pve : ProxmoxAPI) :
  (forall fams, StatusCollector.collect pve = Ok fams ->
                Forall Shape.well_shaped fams) /\
  (forall fams, Forall Py.dict_wf (cluster_resources pve) ->
                ClusterResourcesCollector.collect pve = Ok fams ->
                Forall Shape.well_shaped fams) /\
  (forall fams, ClusterNodeCollector.collect pve = Ok fams ->
                Forall Shape.well_shaped fams) /\
  (forall fams, ClusterInfoCollector.collect pve = Ok fams ->
                Forall Shape.well_shaped fams) /\
  (forall fams, VersionCollector.collect pve = Ok fams ->
                Forall Shape.well_shaped fams).
Proof.
  split; [ | split; [ | split; [ | split ] ] ].
  - intros fams H.
    destruct (status_collect_loop _ _ H) as (seen & new & _ & -> & _ & Hnew).
    constructor; [ | constructor ].
    apply map_each_Ok_inv in Hnew. apply ShapeFacts.status_samples_five in Hnew.
    exact Hnew.
  - intros fams Hwf H. rewrite (ClosedFacts.collect_expected _ _ Hwf H).
    unfold Closed.expected, Closed.grow.
    cbn [ClusterResourcesCollector.metrics_table
         ClusterResourcesCollector.info_metrics_table map fst snd app].
    repeat (constructor;
            [ unfold Shape.well_shaped; cbn [samples labelnames extend new_family app];
              first [ apply ClosedFacts.contribution_five
                    | apply ClosedFacts.info_contribution_five ] | ]).
    constructor.
  - intros fams H. destruct (CollectFacts.node_collect_Ok _ _ H) as [_ ->].
    apply ShapeFacts.info_family_shaped.
  - intros fams H. destruct (CollectFacts.cluster_collect_Ok _ _ H) as [_ ->].
    apply ShapeFacts.info_family_shaped.
  - intros fams. unfold VersionCollector.collect.
    destruct (VersionCollector.whitelisted (version pve)) as [| item kept];
      [ discriminate | ].
    intros [= <-]. constructor; [ | constructor ].
    unfold Shape.well_shaped; cbn [samples labelnames add_metric new_family app].
    constructor; [ | constructor ].
    cbn [sample_labels]. unfold Py.values, Py.keys. cbn [map List.length].
    rewrite !length_map. reflexivity.
Qed.

Lemma families_well_shaped_witness :
  (exists fams, StatusCollector.collect Examples.pve = Ok fams /\
                Forall Shape.well_shaped fams) /\
  (exists fams, ClusterNodeCollector.collect Examples.pve = Ok fams /\
                Forall Shape.well_shaped fams) /\
  (exists fams, VersionCollector.collect Examples.pve = Ok fams /\
                Forall Shape.well_shaped fams).
Proof.
  destruct (families_well_shaped Examples.pve) as (Hstatus & _ & Hnode & _ & Hversion).
  split; [ | split ]; eexists; (split; [ reflexivity | ]).
  - apply Hstatus; reflexivity.
  - apply Hnode; reflexivity.
  - apply Hversion; reflexivity.
Defined.

(** ** More on [VersionCollector.collect] *)

(** X18.  On a version record that is a dict, the family of the version
    collector has at most three label names, pairwise distinct and all
    among release, repoid, version, in the order the record has them. *)
Theorem version_label_names (pve : ProxmoxAPI) (fam : GaugeMetricFamily value) :
  Py.dict_wf (version pve) ->
  VersionCollector.collect pve = Ok [fam] ->
  NoDup (labelnames fam) /\
  incl (labelnames fam) ["release"; "repoid"; "version"] /\
  List.length (labelnames fam) <= 3 /\
  labelnames fam =
  filter (fun key => existsb (String.eqb key) VersionCollector.LABEL_WHITELIST)
         (Py.keys (version pve)).
Proof.
  intros Hwf H. unfold VersionCollector.collect in H.
  rewrite (VersionFacts.whitelisted_filter _ Hwf) in H.
  assert (Hkeys : forall d, Py.keys (filter Whitelist.allowed d) =
                            filter (fun key => existsb (String.eqb key)
                                                       VersionCollector.LABEL_WHITELIST)
                                   (Py.keys d)).
  { unfold Py.keys, Whitelist.allowed. induction d as [| [k v] d IH]; simpl in *;
      [ reflexivity | ].
    destruct (_ || _)%bool; simpl; rewrite IH; reflexivity. }
  assert (Hfam : labelnames fam = Py.keys (filter Whitelist.allowed (version pve))).
  { destruct (filter Whitelist.allowed (version pve)) as [| item kept];
      [ discriminate | ].
    injection H as <-. reflexivity. }
  rewrite Hfam, Hkeys.
  assert (Hnd : NoDup (filter (fun key => existsb (String.eqb key)
                                                   VersionCollector.LABEL_WHITELIST)
                              (Py.keys (version pve))))
    by (apply NoDup_filter; exact Hwf).
  assert (Hincl : incl (filter (fun key => existsb (String.eqb key)
                                                   VersionCollector.LABEL_WHITELIST)
                               (Py.keys (version pve)))
                       ["release"; "repoid"; "version"]).
  { intros key Hin. apply filter_In in Hin. destruct Hin as [_ Hin].
    apply LabelFacts.existsb_eqb_In in Hin. exact Hin. }
  split; [ exact Hnd | split; [ exact Hincl | split; [ | reflexivity ] ] ].
  apply (NoDup_incl_length Hnd Hincl).
Qed.

Lemma version_label_names_witness :
  NoDup ["version"; "release"; "repoid"] /\
  incl ["version"; "release"; "repoid"] ["release"; "repoid"; "version"] /\
  List.length ["version"; "release"; "repoid"] <= 3 /\
  ["version"; "release"; "repoid"] =
  filter (fun key => existsb (String.eqb key) VersionCollector.LABEL_WHITELIST)
         (Py.keys Examples.version_answer).
Proof.
  refine (version_label_names Examples.pve _ _ eq_refl).
  unfold Py.dict_wf; simpl.
  repeat (constructor; [ simpl; intuition discriminate | ]); constructor.
Defined.
